(** * arachnid: downloader middleware chain and engine task distribution

    A shallow embedding of [arachnid/downloadermw.py] and
    [arachnid/engine.py].  Python values are a tagged union, exceptions are
    explicit results, and the engine object ([self]) is a record threaded
    through a small state-and-exception monad.  Every call of a hook, of the
    download function, of the transport and of the queue is recorded in the
    engine's [trace], so that "is invoked", "is skipped" and "before" are
    statements about that trace. *)

From stdpp Require Import gmap strings list.
From Stdlib Require Import ZArith.

Open Scope string_scope.
Open Scope list_scope.

(** ** Exceptions *)

(** The exception classes the two modules name or can raise.  The split
    between [Exception] subclasses and bare [BaseException] subclasses is
    Python 3's (3.8 and later for [CancelledError]); [IgnoreRequest] is an
    [Exception] subclass, as the docstring of the downloader manager says
    that raising it invokes the [process_exception] handler. *)
Inductive ExcClass : Type :=
  | KeyboardInterrupt
  | SystemExit
  | CancelledError
  | GeneratorExit
  | MemoryError
  | AssertionError
  | IgnoreRequest
  | KeyError
  | TypeError
  | ValueError
  | OtherException (cls_name : string).

Record Exc : Type := mkExc { exc_class : ExcClass; exc_msg : string }.

(** [isinstance(e, Exception)] *)
Definition is_Exception (e : Exc) : bool :=
  match exc_class e with
  | KeyboardInterrupt | SystemExit | CancelledError | GeneratorExit => false
  | _ => true
  end.

(** [isinstance(e, IgnoreRequest)] *)
Definition is_IgnoreRequest (e : Exc) : bool :=
  match exc_class e with IgnoreRequest => true | _ => false end.

(** [isinstance(e, (KeyboardInterrupt, MemoryError, SystemExit,
    asyncio.CancelledError))], the first handler of [Engine.consumer]. *)
Definition is_fatal (e : Exc) : bool :=
  match exc_class e with
  | KeyboardInterrupt | MemoryError | SystemExit | CancelledError => true
  | _ => false
  end.

(** ** Spiders, requests, responses *)

(** A spider instance: its name, seed URLs and the logger it was built with. *)
Record SpiderInst : Type := mkSpiderInst {
  name : string;
  start_urls : list string;
  spider_logger : string
}.

(** A bound method of a spider: [callback.__self__] and [callback.__name__]. *)
Record Callback : Type := mkCallback {
  cb_self : SpiderInst;
  cb_name : string
}.

(** Modelled from the spec: [arachnid/request.py] is not part of the sources;
    a Task is {url, callback, arbitrary metadata}, a plain object. *)
Record Request : Type := mkRequest {
  url : string;
  callback : Callback;
  meta : list (string * string)
}.

(** Modelled from the spec: [arachnid/response.py] is not part of the sources;
    a Result is {url, status code, headers, body, originating Task}, a plain
    object. *)
Record Response : Type := mkResponse {
  resp_url : string;
  status : Z;
  headers : list (string * string);
  body : string;
  request : Request
}.

(** ** Python values *)

#[warnings="-register-all"]
Inductive Value : Type :=
  | VNone
  | VResponse (r : Response)
  | VRequest (q : Request)
  | VExc (e : Exc)
  | VList (items : list Value)
  | VStr (s : string)
  | VInt (n : Z).

Definition is_None (v : Value) : bool :=
  match v with VNone => true | _ => false end.

Definition is_Response (v : Value) : bool :=
  match v with VResponse _ => true | _ => false end.

Definition is_Request (v : Value) : bool :=
  match v with VRequest _ => true | _ => false end.

(** [bool(v)]: instances of plain classes are true, [None] is false,
    containers and strings are true when not empty, integers when not zero. *)
Definition truthy (v : Value) : bool :=
  match v with
  | VNone => false
  | VResponse _ | VRequest _ | VExc _ => true
  | VList items => match items with [] => false | _ => true end
  | VStr s => match s with EmptyString => false | _ => true end
  | VInt n => negb (Z.eqb n 0)
  end.

(** [_isiterable]: [hasattr(v, '__iter__')]. *)
Definition _isiterable (v : Value) : bool :=
  match v with
  | VList _ | VStr _ => true
  | _ => false
  end.

(** [v.__class__.__name__] *)
Definition class_name (v : Value) : string :=
  match v with
  | VNone => "NoneType"
  | VResponse _ => "Response"
  | VRequest _ => "Request"
  | VExc e =>
      match exc_class e with
      | KeyboardInterrupt => "KeyboardInterrupt"
      | SystemExit => "SystemExit"
      | CancelledError => "CancelledError"
      | GeneratorExit => "GeneratorExit"
      | MemoryError => "MemoryError"
      | AssertionError => "AssertionError"
      | IgnoreRequest => "IgnoreRequest"
      | KeyError => "KeyError"
      | TypeError => "TypeError"
      | ValueError => "ValueError"
      | OtherException n => n
      end
  | VList _ => "list"
  | VStr _ => "str"
  | VInt _ => "int"
  end.

(** [str(type(v))], as [format] prints a class: the name of a built-in
    class alone, the name of any other class after the module that defines
    it ([Request], [Response] and [IgnoreRequest] in the modules they are
    imported from, [CancelledError] where Python 3.8 and later define it).
    For [OtherException n], [n] is the name the class prints under. *)
Definition type_repr (v : Value) : string :=
  "<class '" ++
  match v with
  | VResponse _ => "arachnid.response.Response"
  | VRequest _ => "arachnid.request.Request"
  | VExc e =>
      match exc_class e with
      | IgnoreRequest => "arachnid.exceptions.IgnoreRequest"
      | CancelledError => "asyncio.exceptions.CancelledError"
      | _ => class_name v
      end
  | _ => class_name v
  end ++ "'>".

(** What a call of foreign code (a hook, a callback) does: return or raise. *)
Inductive Outcome : Type :=
  | Ret (v : Value)
  | Raise (e : Exc).

(** ** Middlewares and the downloader middleware manager *)

(** A bound hook: the middleware it belongs to and the function itself. *)
Record Hook (F : Type) : Type := mkHook { hook_owner : nat; hook_call : F }.
Arguments mkHook {F} _ _.
Arguments hook_owner {F} _.
Arguments hook_call {F} _.

Abbreviation RequestFn := (Request -> SpiderInst -> Outcome).
Abbreviation ResponseFn := (Request -> Value -> SpiderInst -> Outcome).
Abbreviation ExceptionFn := (Request -> Exc -> SpiderInst -> Outcome).

(** A middleware object: an identity and the hooks it happens to define
    ([hasattr] is [Some]). *)
Record Middleware : Type := mkMiddleware {
  mw_id : nat;
  mw_process_request : option RequestFn;
  mw_process_response : option ResponseFn;
  mw_process_exception : option ExceptionFn;
  mw_open_spider : bool;
  mw_close_spider : bool
}.

(** [self.methods], one ordered sequence of bound hooks per capability. *)
Record DownloaderMiddlewareManager : Type := mkManager {
  process_request_methods : list (Hook RequestFn);
  process_response_methods : list (Hook ResponseFn);
  process_exception_methods : list (Hook ExceptionFn);
  open_spider_methods : list nat;
  close_spider_methods : list nat
}.

Definition new_manager : DownloaderMiddlewareManager :=
  mkManager [] [] [] [] [].

(** Modelled from the spec: [MiddlewareManager._add_middleware] of
    [arachnid/middleware.py] is not part of the sources; the base class keeps
    the [open]/[close] hooks, in registration order, and leaves the three
    processing sequences alone. *)
Definition super_add_middleware (self : DownloaderMiddlewareManager)
    (mw : Middleware) : DownloaderMiddlewareManager :=
  mkManager
    (process_request_methods self)
    (process_response_methods self)
    (process_exception_methods self)
    (if mw_open_spider mw
     then open_spider_methods self ++ [mw_id mw] else open_spider_methods self)
    (if mw_close_spider mw
     then close_spider_methods self ++ [mw_id mw] else close_spider_methods self).

(** [DownloaderMiddlewareManager._add_middleware]: [append] for requests,
    [insert(0, _)] for responses and exceptions. *)
Definition _add_middleware (self : DownloaderMiddlewareManager)
    (mw : Middleware) : DownloaderMiddlewareManager :=
  let self := super_add_middleware self mw in
  let self :=
    match mw_process_request mw with
    | Some f =>
        mkManager (process_request_methods self ++ [mkHook (mw_id mw) f])
          (process_response_methods self) (process_exception_methods self)
          (open_spider_methods self) (close_spider_methods self)
    | None => self
    end in
  let self :=
    match mw_process_response mw with
    | Some f =>
        mkManager (process_request_methods self)
          (mkHook (mw_id mw) f :: process_response_methods self)
          (process_exception_methods self)
          (open_spider_methods self) (close_spider_methods self)
    | None => self
    end in
  match mw_process_exception mw with
  | Some f =>
      mkManager (process_request_methods self)
        (process_response_methods self)
        (mkHook (mw_id mw) f :: process_exception_methods self)
        (open_spider_methods self) (close_spider_methods self)
  | None => self
  end.

(** Registering a sequence of middlewares, first to last. *)
Definition register_all (mws : list Middleware) : DownloaderMiddlewareManager :=
  fold_left _add_middleware mws new_manager.

(** ** The engine object and the effects of its methods *)

Inductive LogLevel : Type := DEBUG | INFO | WARNING | ERROR.

(** Everything observable that a task's processing does, in order. *)
Inductive Event : Type :=
  | EvRequestHook (owner : nat) (req : Request)
  | EvDownloadFunc (req : Request)
  | EvResponseHook (owner : nat) (req : Request) (resp : Value)
  | EvExceptionHook (owner : nat) (req : Request) (e : Exc)
  | EvSeenAdd (u : string)
  | EvNetGet (u : string)
  | EvScrape (cb : Callback) (resp : Value) (req : Request)
  | EvProcessItem (item : Value)
  | EvQueueGet (req : Request)
  | EvQueuePut (req : Request)
  | EvTaskDone
  | EvLog (logger : string) (level : LogLevel) (msg : Value).

(** Modelled from the spec: [arachnid/spidermw.py] is not part of the
    sources; its manager offers the scrape operation, which runs the task's
    callback through the spider middlewares and returns a sequence of
    outcomes or a fault value. *)
Record SpiderMiddlewareManager : Type := mkSpiderMW {
  scrape_response : Callback -> Value -> Request -> SpiderInst -> Outcome
}.

(** Modelled from the spec: [arachnid/resultmw.py] is not part of the
    sources; its manager holds the [process_item] hooks and offers the
    process-item operation. *)
Record ResultMiddlewareManager : Type := mkResultMW {
  process_item_methods : list nat;
  process_item : Value -> SpiderInst -> Outcome
}.

(** One value of [Engine.spiders]. *)
Record SpiderEntry : Type := mkSpiderEntry {
  spider : SpiderInst;
  downloadmwmanager : DownloaderMiddlewareManager;
  spidermwmanager : SpiderMiddlewareManager;
  resultmwmanager : ResultMiddlewareManager
}.

(** [Engine]: the [asyncio.Queue] (its deque and its count of unfinished
    tasks), the spider registry, the seen set, and the trace. *)
Record Engine : Type := mkEngine {
  queue : list Request;
  unfinished_tasks : nat;
  spiders : gmap string SpiderEntry;
  seen_urls : gset string;
  trace : list Event
}.

(** A computation on the engine either returns or raises, and always leaves
    a state behind. *)
Inductive Res (A : Type) : Type :=
  | Ok (a : A)
  | Err (e : Exc).
Arguments Ok {A} _.
Arguments Err {A} _.

Definition M (A : Type) : Type := Engine -> Res A * Engine.

Definition ret {A} (a : A) : M A := fun st => (Ok a, st).

Definition raise {A} (e : Exc) : M A := fun st => (Err e, st).

Definition bind {A B} (m : M A) (k : A -> M B) : M B :=
  fun st =>
    match m st with
    | (Ok a, st') => k a st'
    | (Err e, st') => (Err e, st')
    end.

Notation "'let*' x ':=' m 'in' k" := (bind m (fun x => k))
  (at level 10, x name, m at level 100, k at level 200).

(** The state with more events at the end of its trace. *)
Definition add_events (st : Engine) (evs : list Event) : Engine :=
  mkEngine (queue st) (unfinished_tasks st) (spiders st) (seen_urls st)
    (trace st ++ evs).

Definition emit (ev : Event) : M unit :=
  fun st => (Ok tt, add_events st [ev]).

(** Calling foreign code: its return value, or its exception raised here. *)
Definition call (o : Outcome) : M Value :=
  match o with
  | Ret v => ret v
  | Raise e => raise e
  end.

(** [try: body except Exception as exc: handler(exc)]: an exception that is
    not an instance of [Exception] passes through. *)
Definition try_except_Exception {A} (body : M A) (handler : Exc -> M A) : M A :=
  fun st =>
    match body st with
    | (Ok a, st') => (Ok a, st')
    | (Err exc, st') =>
        if is_Exception exc then handler exc st' else (Err exc, st')
    end.

(** ** [DownloaderMiddlewareManager.download] *)

Definition assertion (msg : string) : Exc := mkExc AssertionError msg.

Section Download.

Variable self : DownloaderMiddlewareManager.
Variable download_func : Request -> string -> SpiderInst -> M Value.
Variable request : Request.
Variable logger : string.
Variable spider : SpiderInst.

(** The [for] loop of the inner [process_request]: [Some v] when a hook's
    return value was true and returned at once, [None] when the loop ran
    to its end. *)
Fixpoint process_request_loop (methods : list (Hook RequestFn))
    : M (option Value) :=
  match methods with
  | [] => ret None
  | method :: rest =>
      let* _ := emit (EvRequestHook (hook_owner method) request) in
      let* response := call (hook_call method request spider) in
      if negb (is_None response || is_Response response || is_Request response)
      then raise (assertion
             ("Middleware method.process_request must return None, Response or Request, got "
                ++ class_name response))
      else if truthy response then ret (Some response)
      else process_request_loop rest
  end.

Definition process_request : M Value :=
  let* early := process_request_loop (process_request_methods self) in
  match early with
  | Some response => ret response
  | None =>
      let* _ := emit (EvDownloadFunc request) in
      download_func request logger spider
  end.

(** The [for] loop of the inner [process_response]; [response] is
    rebound to each hook's return value. *)
Fixpoint process_response_loop (methods : list (Hook ResponseFn))
    (response : Value) : M Value :=
  match methods with
  | [] => ret response
  | method :: rest =>
      let* _ := emit (EvResponseHook (hook_owner method) request response) in
      let* response := call (hook_call method request response spider) in
      if negb (is_None response || is_Response response || is_Request response)
      then raise (assertion
             ("Middleware method.process_response must return Response or Request, got "
                ++ class_name response))
      else if is_Request response then ret response
      else process_response_loop rest response
  end.

Definition process_response (response : Value) : M Value :=
  if is_None response
  then raise (assertion "Received None in process_response")
  else if is_Request response then ret response
  else process_response_loop (process_response_methods self) response.

Fixpoint process_exception_loop (methods : list (Hook ExceptionFn))
    (_failure : Exc) : M Value :=
  match methods with
  | [] => ret (VExc _failure)
  | method :: rest =>
      let* _ := emit (EvExceptionHook (hook_owner method) request _failure) in
      let* result := call (hook_call method request _failure spider) in
      if negb (is_None result || _isiterable result)
      then raise (assertion
             ("Middleware method must returns None, or an iterable object, got "
                ++ type_repr result))
      else if negb (is_None result) then ret result
      else process_exception_loop rest _failure
  end.

Definition process_exception (_failure : Exc) : M Value :=
  process_exception_loop (process_exception_methods self) _failure.

(** [try: resp = ...; resp = ... except Exception as exc: return ...
    else: return resp] *)
Definition download : M Value :=
  try_except_Exception
    (let* resp := process_request in process_response resp)
    process_exception.

End Download.

(** ** [Engine] *)

(** [asyncio.Queue.put_nowait]: the queue is unbounded, so the item is
    appended to the deque and counted as unfinished. *)
Definition put_nowait (item : Request) : M unit :=
  fun st =>
    (Ok tt, mkEngine (queue st ++ [item]) (S (unfinished_tasks st))
              (spiders st) (seen_urls st) (trace st ++ [EvQueuePut item])).

(** [asyncio.Queue.task_done] *)
Definition task_done : M unit :=
  fun st =>
    match unfinished_tasks st with
    | O => (Err (mkExc ValueError "task_done() called too many times"), st)
    | S n =>
        (Ok tt, mkEngine (queue st) n (spiders st) (seen_urls st)
                  (trace st ++ [EvTaskDone]))
    end.

(** [self.seen_urls.add(u)] *)
Definition seen_add (u : string) : M unit :=
  fun st =>
    (Ok tt, mkEngine (queue st) (unfinished_tasks st) (spiders st)
              ({[ u ]} ∪ seen_urls st) (trace st ++ [EvSeenAdd u])).

(** [self.spiders[key]], a [KeyError] when the key is absent. *)
Definition spiders_getitem (key : string) : M SpiderEntry :=
  fun st =>
    match spiders st !! key with
    | Some entry => (Ok entry, st)
    | None => (Err (mkExc KeyError key), st)
    end.

Definition log (logger : string) (level : LogLevel) (msg : Value) : M unit :=
  emit (EvLog logger level msg).

(** [len(v)] and [iter(v)] for the values that have them. *)
Definition py_len (v : Value) : option nat :=
  match v with
  | VList items => Some (length items)
  | VStr s => Some (String.length s)
  | _ => None
  end.

Fixpoint str_chars (s : string) : list Value :=
  match s with
  | EmptyString => []
  | String c rest => VStr (String c EmptyString) :: str_chars rest
  end.

Definition py_iter (v : Value) : option (list Value) :=
  match v with
  | VList items => Some items
  | VStr s => Some (str_chars s)
  | _ => None
  end.

Definition isinstance_IgnoreRequest (v : Value) : bool :=
  match v with VExc e => is_IgnoreRequest e | _ => false end.

Definition isinstance_Exception (v : Value) : bool :=
  match v with VExc e => is_Exception e | _ => false end.

(** A spider class: its [name] attribute and its constructor. *)
Record SpiderClass : Type := mkSpiderClass {
  sc_name : string;
  sc_call : string -> SpiderInst
}.

(** What [register_spider] hands back: the class it was given, or an
    instance. *)
Inductive SpiderRef : Type :=
  | RefClass (c : SpiderClass)
  | RefInst (i : SpiderInst).

(** What the transport hands back for a GET. *)
Record RawResponse : Type := mkRaw {
  raw_url : string;
  raw_status : Z;
  raw_headers : list (string * string);
  raw_read : Exc + string
}.

Inductive NetOutcome : Type :=
  | NetOk (raw : RawResponse)
  | NetFail (e : Exc).

(** [str.lower] on the ASCII letters, which are all a header name has. *)
Definition ascii_lower (c : Ascii.ascii) : Ascii.ascii :=
  let n := Ascii.nat_of_ascii c in
  if (65 <=? n)%nat && (n <=? 90)%nat then Ascii.ascii_of_nat (n + 32) else c.

Fixpoint str_lower (s : string) : string :=
  match s with
  | EmptyString => EmptyString
  | String c rest => String (ascii_lower c) (str_lower rest)
  end.

(** [response.headers[key]]: the headers of the transport are a multidict
    whose keys compare without regard to case; the first entry under the
    key is the one returned. *)
Fixpoint headers_getitem (key : string) (hs : list (string * string))
    : option string :=
  match hs with
  | [] => None
  | (k, v) :: rest =>
      if String.eqb (str_lower k) (str_lower key) then Some v
      else headers_getitem key rest
  end.

(** What one pass through the body of the worker's [while True] ends in. *)
Inductive Iteration : Type :=
  | Blocked
  | Continue
  | Propagate (e : Exc).

Section EngineMethods.

(** The transport, [aiohttp.request('GET', url)] followed by [read()]. *)
Variable aiohttp_request : string -> NetOutcome.
(** The constructors of the two managers whose modules are not in the
    sources. *)
Variable new_spidermw : SpiderMiddlewareManager.
Variable new_resultmw : ResultMiddlewareManager.

(** [Engine.register_spider] *)
Definition register_spider (spider : SpiderClass) (self : Engine)
    : SpiderRef * Engine :=
  match spiders self !! sc_name spider with
  | None =>
      let logger := ("Engine." ++ sc_name spider)%string in
      let spider := sc_call spider logger in
      (RefInst spider,
       mkEngine (queue self) (unfinished_tasks self)
         (<[ name spider :=
               mkSpiderEntry spider new_manager new_spidermw new_resultmw ]>
            (spiders self))
         (seen_urls self) (trace self))
  | Some _ => (RefClass spider, self)
  end.

(** [Engine.fetch] *)
Definition fetch (task : Request) (logger : string) (spider : SpiderInst)
    : M Value :=
  let* _ := seen_add (url task) in
  let* _ := emit (EvNetGet (url task)) in
  match aiohttp_request (url task) with
  | NetFail e => raise e
  | NetOk response =>
      match headers_getitem "content-type" (raw_headers response) with
      | None => raise (mkExc KeyError "content-type")
      | Some content_type =>
          match raw_read response with
          | inl e => raise e
          | inr response_body =>
              let* _ := log logger DEBUG (VStr "Got a response: %s (code: %s)") in
              ret (VResponse (mkResponse (raw_url response) (raw_status response)
                                (raw_headers response) response_body task))
          end
      end
  end.

(** The [for result in results_iter] loop of [distribute]. *)
Fixpoint distribute_results (results : list Value) (spider : SpiderInst)
    : M unit :=
  match results with
  | [] => ret tt
  | result :: rest =>
      let* _ :=
        match result with
        | VRequest r => put_nowait r
        | _ =>
            let* entry := spiders_getitem (name spider) in
            let* _ := emit (EvProcessItem result) in
            let* res := call (process_item (resultmwmanager entry) result spider) in
            ret tt
        end in
      distribute_results rest spider
  end.

(** Lines 150 to 163 of [engine.py]: what [distribute] does with a
    value from the downloader that none of its three [isinstance] tests
    caught. *)
Definition scrape_and_route (task : Request) (response : Value)
    (spider : SpiderInst) : M unit :=
  let* entry := spiders_getitem (name spider) in
  let* _ := emit (EvScrape (callback task) response task) in
  let* results_iter :=
    call (scrape_response (spidermwmanager entry) (callback task) response task spider) in
  if isinstance_Exception results_iter then
    log "Engine" ERROR results_iter
  else
    let* entry := spiders_getitem (name spider) in
    let* _ :=
      match process_item_methods (resultmwmanager entry) with
      | [] => log "Engine" WARNING
                (VStr "You have no result pipeline, results will be discarded")
      | _ => ret tt
      end in
    match py_len results_iter, py_iter results_iter with
    | Some n, Some results =>
        let* _ := log "Engine" INFO (VStr "Found %d results (from: %s)") in
        distribute_results results spider
    | _, _ =>
        raise (mkExc TypeError
                 ("object of type '" ++ class_name results_iter ++ "' has no len()"))
    end.

(** What [distribute] does with the value [download] returned. *)
Definition classify (task : Request) (response : Value) (spider : SpiderInst)
    : M unit :=
  match response with
  | VRequest r =>
      let* _ := log "Engine" DEBUG
                  (VStr "Got a request from downloader, putting in queue") in
      put_nowait r
  | _ =>
    if isinstance_IgnoreRequest response then
      log "Engine" DEBUG (VStr "Downloader told us to ignore the request")
    else if isinstance_Exception response then
      log "Engine" ERROR response
    else scrape_and_route task response spider
  end.

(** [Engine.distribute] *)
Definition distribute (task : Request) (logger : string) : M unit :=
  let spider := cb_self (callback task) in
  let* _ := log logger INFO (VStr "Got a task: %s (callback: %s)") in
  let* entry := spiders_getitem (name spider) in
  let* response :=
    download (downloadmwmanager entry) fetch task (logger ++ ".DownloadMW") spider in
  classify task response spider.

(** One pass through the body of [while True] in [Engine.consumer]:
    [get], [distribute] under the two handlers, [task_done] in the
    [finally]. *)
Definition consumer_iteration (logger : string) (self : Engine)
    : Iteration * Engine :=
  match queue self with
  | [] => (Blocked, self)
  | request :: rest =>
      let st :=
        mkEngine rest (unfinished_tasks self) (spiders self) (seen_urls self)
          (trace self ++ [EvQueueGet request]) in
      match distribute request logger st with
      | (Ok _, st) =>
          match task_done st with
          | (Ok _, st) => (Continue, st)
          | (Err e, st) => (Propagate e, st)
          end
      | (Err e, st) =>
          if is_fatal e then
            match task_done st with
            | (Ok _, st) => (Propagate e, st)
            | (Err e', st) => (Propagate e', st)
            end
          else
            match (let* _ := log logger ERROR (VStr "Task distribution failed") in
                   task_done) st with
            | (Ok _, st) => (Continue, st)
            | (Err e', st) => (Propagate e', st)
            end
      end
  end.

(** [Engine.consumer], for at most [fuel] passes of the loop: the worker
    stops only when an exception propagates; otherwise it is still in the
    loop ([Continue]) or suspended on an empty queue ([Blocked]). *)
Fixpoint consumer (fuel : nat) (logger : string) (self : Engine)
    : Iteration * Engine :=
  match fuel with
  | O => (Continue, self)
  | S fuel =>
      match consumer_iteration logger self with
      | (Continue, st) => consumer fuel logger st
      | stop => stop
      end
  end.

End EngineMethods.

(** ** Vocabulary of the properties *)

(** The hooks of each kind that a sequence of middlewares defines, in the
    order the middlewares are listed. *)
Definition request_hooks (mws : list Middleware) : list (Hook RequestFn) :=
  omap (fun mw => mkHook (mw_id mw) <$> mw_process_request mw) mws.

Definition response_hooks (mws : list Middleware) : list (Hook ResponseFn) :=
  omap (fun mw => mkHook (mw_id mw) <$> mw_process_response mw) mws.

Definition exception_hooks (mws : list Middleware) : list (Hook ExceptionFn) :=
  omap (fun mw => mkHook (mw_id mw) <$> mw_process_exception mw) mws.

(** The invocation events of a sequence of hooks on one task. *)
Definition req_events (request : Request) (methods : list (Hook RequestFn))
    : list Event :=
  (fun h => EvRequestHook (hook_owner h) request) <$> methods.

Definition exc_events (request : Request) (e : Exc)
    (methods : list (Hook ExceptionFn)) : list Event :=
  (fun h => EvExceptionHook (hook_owner h) request e) <$> methods.

(** A value outside the set a request or response hook may return. *)
Definition contract_violation (v : Value) : bool :=
  negb (is_None v || is_Response v || is_Request v).






(** The state right after the worker's [get] took [request] off the queue,
    and the state after an acknowledged [task_done]. *)
Definition pulled (self : Engine) (request : Request) (rest : list Request)
    : Engine :=
  mkEngine rest (unfinished_tasks self) (spiders self) (seen_urls self)
    (trace self ++ [EvQueueGet request]).

Definition acknowledged (st : Engine) : Engine :=
  mkEngine (queue st) (pred (unfinished_tasks st)) (spiders st) (seen_urls st)
    (trace st ++ [EvTaskDone]).

(** The registry is the same, no task has been acknowledged, and the trace
    has only been added to. *)
Definition grows (st st' : Engine) : Prop :=
  unfinished_tasks st <= unfinished_tasks st' /\
  spiders st' = spiders st /\
  exists evs, trace st' = trace st ++ evs.

Definition growing {A} (m : M A) : Prop := forall st, grows st (snd (m st)).

(** ** Vocabulary of the further properties *)

(** [Engine.__init__]: an empty queue, no spider, nothing seen. *)
Definition Engine_init : Engine := mkEngine [] 0 ∅ ∅ [].

(** A computation keeps the relation [R] between the state it starts in and
    the state it leaves behind. *)
Definition preserved (R : Engine -> Engine -> Prop) {A} (m : M A) : Prop :=
  forall st, R st (snd (m st)).

(** Queue accounting: tasks have only been added at the tail of the queue,
    each one counted as unfinished; the registry is the same and the seen
    set has lost nothing. *)
Definition accounts (st st' : Engine) : Prop :=
  exists added : list Request,
    queue st' = queue st ++ added /\
    unfinished_tasks st' = unfinished_tasks st + length added /\
    spiders st' = spiders st /\
    seen_urls st ⊆ seen_urls st'.

(** The seen set is as it was, or has gained the one URL [u]. *)
Definition sees_at_most (u : string) (st st' : Engine) : Prop :=
  seen_urls st' = seen_urls st \/ seen_urls st' = {[ u ]} ∪ seen_urls st.

(** The tasks among the outcomes of a scrape, in order. *)
Definition requests_of (results : list Value) : list Request :=
  omap (fun v => match v with VRequest r => Some r | _ => None end) results.

(** What the routing loop does with one outcome. *)
Definition route_event (result : Value) : Event :=
  match result with
  | VRequest r => EvQueuePut r
  | _ => EvProcessItem result
  end.

(** The result manager's [process_item] returns for every item of the
    sequence that is not a task. *)
Definition items_accepted (entry : SpiderEntry) (spider : SpiderInst)
    (results : list Value) : Prop :=
  Forall (fun result =>
            is_Request result = true \/
            exists v, process_item (resultmwmanager entry) result spider = Ret v)
         results.

(** The worker's bookkeeping: every queued task is counted as unfinished,
    and [k] more tasks are in flight. *)
Definition in_flight (k : nat) (st : Engine) : Prop :=
  unfinished_tasks st = length (queue st) + k.

(** ** Concrete objects for the examples *)

Module Fixtures.

Definition spider0 : SpiderInst := mkSpiderInst "s" ["http://a/"] "Engine.s".
Definition parse0 : Callback := mkCallback spider0 "parse".
Definition task0 : Request := mkRequest "http://a/" parse0 [].
Definition task1 : Request := mkRequest "http://a/next" parse0 [].
Definition resp0 : Response := mkResponse "http://a/" 200 [] "body" task0.
Definition fault0 : Exc := mkExc (OtherException "ClientError") "connection refused".

Definition engine0 : Engine := mkEngine [] 0 ∅ ∅ [].

(** A download function that returns [resp0] and one that raises. *)
Definition fetch_ok : Request -> string -> SpiderInst -> M Value :=
  fun _ _ _ => ret (VResponse resp0).
Definition fetch_fails (e : Exc) : Request -> string -> SpiderInst -> M Value :=
  fun _ _ _ => raise e.

(** Middlewares with a single hook that returns a fixed value. *)
Definition mw_request (i : nat) (v : Value) : Middleware :=
  mkMiddleware i (Some (fun _ _ => Ret v)) None None false false.
Definition mw_response (i : nat) (v : Value) : Middleware :=
  mkMiddleware i None (Some (fun _ _ _ => Ret v)) None false false.
Definition mw_exception (i : nat) (v : Value) : Middleware :=
  mkMiddleware i None None (Some (fun _ _ _ => Ret v)) false false.

Definition spidermw0 : SpiderMiddlewareManager :=
  mkSpiderMW (fun _ _ _ _ => Ret (VList [])).
Definition resultmw0 : ResultMiddlewareManager :=
  mkResultMW [] (fun _ _ => Ret VNone).

(** An engine whose only spider has the given downloader chain, with the
    given tasks queued. *)
Definition engine_with (chain : DownloaderMiddlewareManager)
    (tasks : list Request) : Engine :=
  mkEngine tasks (length tasks)
    {[ "s" := mkSpiderEntry spider0 chain spidermw0 resultmw0 ]} ∅ [].

Definition net_down (e : Exc) : string -> NetOutcome := fun _ => NetFail e.
Definition net_up : string -> NetOutcome :=
  fun u => NetOk (mkRaw u 200 [("content-type", "text/html")] (inr "body")).

(** An engine whose only spider has an empty downloader chain and the
    given spider middleware manager. *)
Definition engine_scraping (smw : SpiderMiddlewareManager)
    (tasks : list Request) : Engine :=
  mkEngine tasks (length tasks)
    {[ "s" := mkSpiderEntry spider0 new_manager smw resultmw0 ]} ∅ [].

Definition interrupt : Exc := mkExc KeyboardInterrupt "".
Definition spidermw_interrupted : SpiderMiddlewareManager :=
  mkSpiderMW (fun _ _ _ _ => Raise interrupt).
Definition spidermw_broken : SpiderMiddlewareManager :=
  mkSpiderMW (fun _ _ _ _ => Raise (mkExc ValueError "bad page")).

Definition got_a_task : Event :=
  EvLog "Engine.exec0" INFO (VStr "Got a task: %s (callback: %s)").

Definition net_headerless : string -> NetOutcome :=
  fun u => NetOk (mkRaw u 200 [] (inr "body")).
Definition no_content_type : Exc := mkExc KeyError "content-type".

Definition oom : Exc := mkExc MemoryError "".
Definition net_oom : string -> NetOutcome :=
  fun u => NetOk (mkRaw u 200 [("content-type", "text/html")] (inl oom)).

Definition Spider0 : SpiderClass := mkSpiderClass "s" (fun _ => spider0).

(** Bound hooks that return a fixed value, and chains made of them. *)
Definition hq (i : nat) (v : Value) : Hook RequestFn :=
  mkHook i (fun _ _ => Ret v).
Definition hr (i : nat) (v : Value) : Hook ResponseFn :=
  mkHook i (fun _ _ _ => Ret v).
Definition he (i : nat) (v : Value) : Hook ExceptionFn :=
  mkHook i (fun _ _ _ => Ret v).

Definition chain_of (qs : list (Hook RequestFn)) (rs : list (Hook ResponseFn))
    (es : list (Hook ExceptionFn)) : DownloaderMiddlewareManager :=
  mkManager qs rs es [] [].

Definition retry : Value := VList [VRequest task0].

End Fixtures.

(** * Properties *)

(** ** Registration order *)

Lemma fold_add_middleware (mws : list Middleware) (m : DownloaderMiddlewareManager) :
  process_request_methods (fold_left _add_middleware mws m)
    = process_request_methods m ++ request_hooks mws /\
  process_response_methods (fold_left _add_middleware mws m)
    = rev (response_hooks mws) ++ process_response_methods m /\
  process_exception_methods (fold_left _add_middleware mws m)
    = rev (exception_hooks mws) ++ process_exception_methods m.
Proof.
  revert m. induction mws as [|mw mws IH]; intros m.
  - cbn. rewrite app_nil_r. done.
  - cbn [fold_left]. destruct (IH (_add_middleware m mw)) as (Hq & Hr & He).
    rewrite Hq, Hr, He. clear IH Hq Hr He.
    unfold request_hooks, response_hooks, exception_hooks, _add_middleware.
    cbn [omap list_omap].
    destruct mw as [i [fq|] [fr|] [fe|] o c]; cbn;
      rewrite <- ?app_assoc; cbn; done.
Qed.

(** ** Which hooks a run invokes *)

Section LoopTraces.

Variable request : Request.
Variable spider : SpiderInst.




End LoopTraces.


(** ** Runs of the three loops *)

Lemma add_events_nil (st : Engine) : add_events st [] = st.
Proof. destruct st. unfold add_events. cbn. rewrite app_nil_r. done. Qed.

Lemma add_events_app (st : Engine) (a b : list Event) :
  add_events (add_events st a) b = add_events st (a ++ b).
Proof. unfold add_events. cbn. rewrite <- app_assoc. done. Qed.

Lemma add_events_cons (st : Engine) (ev : Event) (evs : list Event) :
  add_events (add_events st [ev]) evs = add_events st (ev :: evs).
Proof. apply add_events_app. Qed.

Section LoopRuns.

Variable request : Request.
Variable spider : SpiderInst.

(** Request hooks that return [None] are passed over. *)
Lemma process_request_loop_None (pre rest : list (Hook RequestFn)) (st : Engine) :
  Forall (fun h => hook_call h request spider = Ret VNone) pre ->
  process_request_loop request spider (pre ++ rest) st
    = process_request_loop request spider rest
        (add_events st (req_events request pre)).
Proof.
  intros Hpre. revert st. induction Hpre as [|h pre Hh _ IH]; intros st.
  - cbn. rewrite add_events_nil. done.
  - cbn [app process_request_loop]. unfold bind, emit. cbv beta iota.
    rewrite Hh. cbn [call ret is_None is_Response is_Request orb negb truthy].
    rewrite IH, add_events_cons. done.
Qed.

(** Exception hooks that return [None] are passed over. *)
Lemma process_exception_loop_None (pre rest : list (Hook ExceptionFn))
    (e : Exc) (st : Engine) :
  Forall (fun h => hook_call h request e spider = Ret VNone) pre ->
  process_exception_loop request spider (pre ++ rest) e st
    = process_exception_loop request spider rest e
        (add_events st (exc_events request e pre)).
Proof.
  intros Hpre. revert st. induction Hpre as [|h pre Hh _ IH]; intros st.
  - cbn. rewrite add_events_nil. done.
  - cbn [app process_exception_loop]. unfold bind, emit. cbv beta iota.
    rewrite Hh. cbn [call ret is_None _isiterable orb negb].
    rewrite IH, add_events_cons. done.
Qed.

(** The response loop over [pre ++ rest] is the loop over [pre] followed,
    unless it raised or returned a [Request], by the loop over [rest] on
    the value it ended with. *)
Lemma process_response_loop_app (pre rest : list (Hook ResponseFn))
    (response : Value) (st : Engine) :
  is_Request response = false ->
  process_response_loop request spider (pre ++ rest) response st
    = match process_response_loop request spider pre response st with
      | (Ok v, st') =>
          if is_Request v then (Ok v, st')
          else process_response_loop request spider rest v st'
      | (Err e, st') => (Err e, st')
      end.
Proof.
  revert response st. induction pre as [|h pre IH]; intros response st Hr.
  - cbn. rewrite Hr. done.
  - cbn [app process_response_loop]. unfold bind, emit. cbv beta iota.
    destruct (hook_call h request response spider) as [v|e];
      cbn [call ret raise]; [|done].
    destruct (negb _); [done|].
    destruct (is_Request v) eqn:Hv.
    + unfold ret. rewrite Hv. done.
    + apply IH, Hv.
Qed.

End LoopRuns.

(** ** The request phase *)

(** The request phase up to a hook that returns a true value [v] of an
    allowed class, every hook before it having returned [None]: [v] is
    returned at once, whatever the download function is. *)
Lemma process_request_early
    (self : DownloaderMiddlewareManager)
    (download_func : Request -> string -> SpiderInst -> M Value)
    (request : Request) (logger : string) (spider : SpiderInst) (st : Engine)
    (pre post : list (Hook RequestFn)) (h : Hook RequestFn) (v : Value) :
  process_request_methods self = pre ++ h :: post ->
  Forall (fun h' => hook_call h' request spider = Ret VNone) pre ->
  hook_call h request spider = Ret v ->
  contract_violation v = false ->
  truthy v = true ->
  process_request self download_func request logger spider st
    = (Ok v, add_events st (req_events request (pre ++ [h]))).
Proof.
  intros Hm Hpre Hh Hc Ht. unfold process_request. rewrite Hm.
  unfold bind at 1. rewrite process_request_loop_None by exact Hpre.
  cbn [process_request_loop]. unfold bind, emit. cbv beta iota.
  rewrite Hh. cbn [call ret]. unfold contract_violation in Hc.
  rewrite Hc, Ht. unfold req_events. rewrite fmap_app, add_events_app. done.
Qed.

(** C2. If a [process_request] hook returns a Result, every hook before it
    having returned [None], then the request phase ends there with that
    Result: only the hooks up to that one are invoked, the download function
    is not invoked (the outcome is the same for every download function and
    the trace gains no [EvDownloadFunc]), and [download] goes on with the
    response phase on that Result. *)
Theorem request_hook_result_skips_fetch
    (self : DownloaderMiddlewareManager)
    (download_func : Request -> string -> SpiderInst -> M Value)
    (request : Request) (logger : string) (spider : SpiderInst) (st : Engine)
    (pre post : list (Hook RequestFn)) (h : Hook RequestFn) (r : Response) :
  process_request_methods self = pre ++ h :: post ->
  Forall (fun h' => hook_call h' request spider = Ret VNone) pre ->
  hook_call h request spider = Ret (VResponse r) ->
  process_request self download_func request logger spider st
    = (Ok (VResponse r), add_events st (req_events request (pre ++ [h]))) /\
  (EvDownloadFunc request ∉ req_events request (pre ++ [h])) /\
  download self download_func request logger spider st
    = try_except_Exception
        (process_response self request spider (VResponse r))
        (process_exception self request spider)
        (add_events st (req_events request (pre ++ [h]))).
Proof.
  intros Hm Hpre Hh. set (st1 := add_events _ _).
  assert (Hp : process_request self download_func request logger spider st
               = (Ok (VResponse r), st1)).
  { eapply process_request_early; eauto. }
  split; [exact Hp|]. split.
  - unfold req_events. intros Hin. apply list_elem_of_fmap in Hin.
    destruct Hin as (h' & Heq & _). discriminate Heq.
  - unfold download, try_except_Exception, bind. rewrite Hp. done.
Qed.

(** ** The response phase *)

(** The response phase up to the hook [h], the hooks before it having run
    through to the value [v1]: what [h] is called with, and what follows
    from its outcome, is the loop over [h :: post] on [v1]. *)
Lemma download_at_response_hook
    (self : DownloaderMiddlewareManager)
    (download_func : Request -> string -> SpiderInst -> M Value)
    (request : Request) (logger : string) (spider : SpiderInst) (st : Engine)
    (pre post : list (Hook ResponseFn)) (h : Hook ResponseFn)
    (v0 v1 : Value) (st0 st1 : Engine) :
  process_response_methods self = pre ++ h :: post ->
  process_request self download_func request logger spider st = (Ok v0, st0) ->
  is_None v0 = false -> is_Request v0 = false ->
  process_response_loop request spider pre v0 st0 = (Ok v1, st1) ->
  is_Request v1 = false ->
  download self download_func request logger spider st
    = try_except_Exception
        (process_response_loop request spider (h :: post) v1)
        (process_exception self request spider) st1.
Proof.
  intros Hm Hp Hn Hq Hl Hq1.
  unfold download, try_except_Exception, bind. rewrite Hp.
  unfold process_response. rewrite Hn, Hq, Hm.
  rewrite process_response_loop_app by exact Hq. rewrite Hl, Hq1. done.
Qed.

(** C6. If a [process_request] hook returns a Task (the hooks before it
    having returned [None]), [download] returns that Task and has invoked
    only the request hooks up to that one: no download function, no response
    hook, no exception hook.  If a [process_response] hook returns a Task
    (the response phase having reached it with the value [v1]), [download]
    returns that Task and invokes no hook after it. *)
Theorem hook_task_is_returned
    (self : DownloaderMiddlewareManager)
    (download_func : Request -> string -> SpiderInst -> M Value)
    (request : Request) (logger : string) (spider : SpiderInst) (st : Engine)
    (q : Request) :
  (forall (pre post : list (Hook RequestFn)) (h : Hook RequestFn),
     process_request_methods self = pre ++ h :: post ->
     Forall (fun h' => hook_call h' request spider = Ret VNone) pre ->
     hook_call h request spider = Ret (VRequest q) ->
     download self download_func request logger spider st
       = (Ok (VRequest q), add_events st (req_events request (pre ++ [h])))) /\
  (forall (pre post : list (Hook ResponseFn)) (h : Hook ResponseFn)
          (v0 v1 : Value) (st0 st1 : Engine),
     process_response_methods self = pre ++ h :: post ->
     process_request self download_func request logger spider st = (Ok v0, st0) ->
     is_None v0 = false -> is_Request v0 = false ->
     process_response_loop request spider pre v0 st0 = (Ok v1, st1) ->
     is_Request v1 = false ->
     hook_call h request v1 spider = Ret (VRequest q) ->
     download self download_func request logger spider st
       = (Ok (VRequest q),
          add_events st1 [EvResponseHook (hook_owner h) request v1])).
Proof.
  split.
  - intros pre post h Hm Hpre Hh.
    unfold download, try_except_Exception, bind.
    erewrite process_request_early by eauto. done.
  - intros pre post h v0 v1 st0 st1 Hm Hp Hn Hq Hl Hq1 Hh.
    erewrite download_at_response_hook by eauto.
    unfold try_except_Exception. cbn [process_response_loop].
    unfold bind, emit. cbv beta iota. rewrite Hh. done.
Qed.

(** ** The exception phase *)

(** C4. If the request phase, the download function or the response phase
    raises a fault (an instance of [Exception]), [download] offers it to the
    [process_exception] hooks in their stored order.  The first hook that
    returns something other than [None] ends the phase, and [download]
    returns what it returned; no later hook is invoked.  If every hook
    returns [None], [download] returns the fault itself as a value, having
    invoked every hook once, and raises nothing. *)
Theorem fault_is_offered_to_exception_hooks
    (self : DownloaderMiddlewareManager)
    (download_func : Request -> string -> SpiderInst -> M Value)
    (request : Request) (logger : string) (spider : SpiderInst)
    (st st1 : Engine) (e : Exc) :
  (let* resp := process_request self download_func request logger spider in
   process_response self request spider resp) st = (Err e, st1) ->
  is_Exception e = true ->
  (forall (pre post : list (Hook ExceptionFn)) (h : Hook ExceptionFn) (v : Value),
     process_exception_methods self = pre ++ h :: post ->
     Forall (fun h' => hook_call h' request e spider = Ret VNone) pre ->
     hook_call h request e spider = Ret v ->
     is_None v = false -> _isiterable v = true ->
     download self download_func request logger spider st
       = (Ok v, add_events st1 (exc_events request e (pre ++ [h])))) /\
  (Forall (fun h' => hook_call h' request e spider = Ret VNone)
     (process_exception_methods self) ->
   download self download_func request logger spider st
     = (Ok (VExc e),
        add_events st1 (exc_events request e (process_exception_methods self)))).
Proof.
  intros Hrun He.
  assert (Hd : download self download_func request logger spider st
               = process_exception self request spider e st1).
  { unfold download, try_except_Exception. rewrite Hrun, He. done. }
  rewrite Hd. unfold process_exception. split.
  - intros pre post h v Hm Hpre Hh Hn Hi. rewrite Hm.
    rewrite process_exception_loop_None by exact Hpre.
    cbn [process_exception_loop]. unfold bind, emit. cbv beta iota.
    rewrite Hh. cbn [call ret]. rewrite Hn, Hi. cbn [orb negb].
    unfold exc_events. rewrite fmap_app, add_events_app. done.
  - intros Hall.
    rewrite <- (app_nil_r (process_exception_methods self)) at 1.
    rewrite process_exception_loop_None by exact Hall. done.
Qed.

(** ** Contract violations *)

(** C5 (as amended). If a [process_request] or [process_response] hook
    returns a value outside {None, Result, Task}, the [assert] after the
    call raises an [AssertionError] inside the [try] block of [download]:
    the remaining hooks of the phase, and for a request hook also the
    download function and the response phase, are skipped, and the
    [AssertionError] is handed to the exception phase like any other
    [Exception]. *)
Theorem contract_violation_enters_exception_phase
    (self : DownloaderMiddlewareManager)
    (download_func : Request -> string -> SpiderInst -> M Value)
    (request : Request) (logger : string) (spider : SpiderInst) (st : Engine)
    (v : Value) :
  contract_violation v = true ->
  (forall (pre post : list (Hook RequestFn)) (h : Hook RequestFn),
     process_request_methods self = pre ++ h :: post ->
     Forall (fun h' => hook_call h' request spider = Ret VNone) pre ->
     hook_call h request spider = Ret v ->
     download self download_func request logger spider st
       = process_exception self request spider
           (assertion
              ("Middleware method.process_request must return None, Response or Request, got "
                 ++ class_name v))
           (add_events st (req_events request (pre ++ [h])))) /\
  (forall (pre post : list (Hook ResponseFn)) (h : Hook ResponseFn)
          (v0 v1 : Value) (st0 st1 : Engine),
     process_response_methods self = pre ++ h :: post ->
     process_request self download_func request logger spider st = (Ok v0, st0) ->
     is_None v0 = false -> is_Request v0 = false ->
     process_response_loop request spider pre v0 st0 = (Ok v1, st1) ->
     is_Request v1 = false ->
     hook_call h request v1 spider = Ret v ->
     download self download_func request logger spider st
       = process_exception self request spider
           (assertion
              ("Middleware method.process_response must return Response or Request, got "
                 ++ class_name v))
           (add_events st1 [EvResponseHook (hook_owner h) request v1])).
Proof.
  intros Hv. unfold contract_violation in Hv. split.
  - intros pre post h Hm Hpre Hh.
    unfold download, try_except_Exception, bind, process_request. rewrite Hm.
    unfold bind. rewrite process_request_loop_None by exact Hpre.
    cbn [process_request_loop]. unfold bind, emit. cbv beta iota.
    rewrite Hh. cbn [call ret]. rewrite Hv. cbn [raise is_Exception assertion exc_class].
    unfold req_events. rewrite fmap_app, add_events_app. done.
  - intros pre post h v0 v1 st0 st1 Hm Hp Hn Hq Hl Hq1 Hh.
    erewrite download_at_response_hook by eauto.
    unfold try_except_Exception. cbn [process_response_loop].
    unfold bind, emit. cbv beta iota. rewrite Hh. cbn [call ret]. rewrite Hv.
    done.
Qed.

(** ** The claims at concrete inputs *)

Import Fixtures.

Lemma request_hook_result_skips_fetch_witness :
  let self := chain_of [hq 1 VNone; hq 2 (VResponse resp0); hq 3 VNone] [] [] in
  let st1 := add_events engine0 [EvRequestHook 1 task0; EvRequestHook 2 task0] in
  process_request self (fetch_fails fault0) task0 "exec0" spider0 engine0
    = (Ok (VResponse resp0), st1) /\
  download self (fetch_fails fault0) task0 "exec0" spider0 engine0
    = (Ok (VResponse resp0), st1).
Proof.
  destruct (request_hook_result_skips_fetch
              (chain_of [hq 1 VNone; hq 2 (VResponse resp0); hq 3 VNone] [] [])
              (fetch_fails fault0) task0 "exec0" spider0 engine0
              [hq 1 VNone] [hq 3 VNone] (hq 2 (VResponse resp0)) resp0)
    as (Hp & _ & Hd).
  - reflexivity.
  - repeat constructor.
  - reflexivity.
  - split; [exact Hp | rewrite Hd; reflexivity].
Defined.

Lemma hook_task_is_returned_witness :
  download (chain_of [hq 1 VNone; hq 2 (VRequest task1); hq 3 VNone]
              [hr 4 VNone] [he 5 retry])
    fetch_ok task0 "exec0" spider0 engine0
    = (Ok (VRequest task1),
       add_events engine0 [EvRequestHook 1 task0; EvRequestHook 2 task0]) /\
  download (chain_of [] [hr 1 (VResponse resp0); hr 2 (VRequest task1); hr 3 VNone]
              [he 5 retry])
    fetch_ok task0 "exec0" spider0 engine0
    = (Ok (VRequest task1),
       add_events engine0
         [EvDownloadFunc task0; EvResponseHook 1 task0 (VResponse resp0);
          EvResponseHook 2 task0 (VResponse resp0)]).
Proof.
  split.
  - apply (proj1 (hook_task_is_returned _ fetch_ok task0 "exec0" spider0 engine0 task1)
             [hq 1 VNone] [hq 3 VNone] (hq 2 (VRequest task1))).
    + reflexivity.
    + repeat constructor.
    + reflexivity.
  - apply (proj2 (hook_task_is_returned _ fetch_ok task0 "exec0" spider0 engine0 task1)
             [hr 1 (VResponse resp0)] [hr 3 VNone] (hr 2 (VRequest task1))
             (VResponse resp0) (VResponse resp0)
             (add_events engine0 [EvDownloadFunc task0])
             (add_events engine0
                [EvDownloadFunc task0; EvResponseHook 1 task0 (VResponse resp0)]));
      reflexivity.
Defined.

Lemma fault_is_offered_to_exception_hooks_witness :
  download (chain_of [] [] [he 1 VNone; he 2 retry; he 3 VNone])
    (fetch_fails fault0) task0 "exec0" spider0 engine0
    = (Ok retry,
       add_events engine0
         [EvDownloadFunc task0; EvExceptionHook 1 task0 fault0;
          EvExceptionHook 2 task0 fault0]) /\
  download (chain_of [] [] [he 1 VNone; he 2 VNone])
    (fetch_fails fault0) task0 "exec0" spider0 engine0
    = (Ok (VExc fault0),
       add_events engine0
         [EvDownloadFunc task0; EvExceptionHook 1 task0 fault0;
          EvExceptionHook 2 task0 fault0]).
Proof.
  split.
  - apply (proj1 (fault_is_offered_to_exception_hooks
                    (chain_of [] [] [he 1 VNone; he 2 retry; he 3 VNone])
                    (fetch_fails fault0) task0 "exec0" spider0 engine0
                    (add_events engine0 [EvDownloadFunc task0]) fault0
                    eq_refl eq_refl)
             [he 1 VNone] [he 3 VNone] (he 2 retry) retry).
    + reflexivity.
    + repeat constructor.
    + reflexivity.
    + reflexivity.
    + reflexivity.
  - apply (proj2 (fault_is_offered_to_exception_hooks
                    (chain_of [] [] [he 1 VNone; he 2 VNone])
                    (fetch_fails fault0) task0 "exec0" spider0 engine0
                    (add_events engine0 [EvDownloadFunc task0]) fault0
                    eq_refl eq_refl)).
    repeat constructor.
Defined.

Lemma contract_violation_enters_exception_phase_witness :
  download (chain_of [hq 1 VNone; hq 2 (VInt 5); hq 3 VNone] [hr 4 VNone] [he 5 VNone])
    fetch_ok task0 "exec0" spider0 engine0
    = process_exception (chain_of [] [] [he 5 VNone]) task0 spider0
        (assertion
           "Middleware method.process_request must return None, Response or Request, got int")
        (add_events engine0 [EvRequestHook 1 task0; EvRequestHook 2 task0]) /\
  download (chain_of [] [hr 1 (VResponse resp0); hr 2 (VStr "x"); hr 3 VNone] [he 5 VNone])
    fetch_ok task0 "exec0" spider0 engine0
    = process_exception (chain_of [] [] [he 5 VNone]) task0 spider0
        (assertion
           "Middleware method.process_response must return Response or Request, got str")
        (add_events engine0
           [EvDownloadFunc task0; EvResponseHook 1 task0 (VResponse resp0);
            EvResponseHook 2 task0 (VResponse resp0)]).
Proof.
  split.
  - apply (proj1 (contract_violation_enters_exception_phase
                    (chain_of [hq 1 VNone; hq 2 (VInt 5); hq 3 VNone] [hr 4 VNone]
                       [he 5 VNone])
                    fetch_ok task0 "exec0" spider0 engine0 (VInt 5) eq_refl)
             [hq 1 VNone] [hq 3 VNone] (hq 2 (VInt 5))).
    + reflexivity.
    + repeat constructor.
    + reflexivity.
  - apply (proj2 (contract_violation_enters_exception_phase
                    (chain_of [] [hr 1 (VResponse resp0); hr 2 (VStr "x"); hr 3 VNone]
                       [he 5 VNone])
                    fetch_ok task0 "exec0" spider0 engine0 (VStr "x") eq_refl)
             [hr 1 (VResponse resp0)] [hr 3 VNone] (hr 2 (VStr "x"))
             (VResponse resp0) (VResponse resp0)
             (add_events engine0 [EvDownloadFunc task0])
             (add_events engine0
                [EvDownloadFunc task0; EvResponseHook 1 task0 (VResponse resp0)]));
      reflexivity.
Defined.

(** C5, counterexample. A request hook returns the integer 5: [download]
    does not fail; the [AssertionError] is caught by the exception phase,
    the registered [process_exception] hook is invoked with it, and, the
    hook returning [None], [download] returns it as a value. *)
Lemma contract_violation_is_caught :
  let violation :=
    assertion
      "Middleware method.process_request must return None, Response or Request, got int" in
  download (register_all [mw_request 1 (VInt 5); mw_exception 2 VNone])
    fetch_ok task0 "exec0" spider0 engine0
  = (Ok (VExc violation),
     add_events engine0
       [EvRequestHook 1 task0; EvExceptionHook 2 task0 violation]).
Proof. reflexivity. Qed.

(** C1, the code at a failing input. Two response middlewares whose hooks
    return [None] are registered and the download function returns a
    Result: the second hook invoked receives [None], not the Result, and
    [download] returns [None]. *)
Lemma response_hook_none_replaces_result :
  download (register_all [mw_response 1 VNone; mw_response 2 VNone])
    fetch_ok task0 "exec0" spider0 engine0
  = (Ok VNone,
     add_events engine0
       [EvDownloadFunc task0; EvResponseHook 2 task0 (VResponse resp0);
        EvResponseHook 1 task0 VNone]).
Proof. reflexivity. Qed.

(** ** What the methods leave alone *)

Lemma grows_refl (st : Engine) : grows st st.
Proof. split; [lia|]. split; [done|]. exists []. rewrite app_nil_r. done. Qed.

Lemma grows_trans (a b c : Engine) : grows a b -> grows b c -> grows a c.
Proof.
  intros (H1 & H2 & evs & H3) (H4 & H5 & evs' & H6).
  split; [lia|]. split; [congruence|].
  exists (evs ++ evs'). rewrite H6, H3, app_assoc. done.
Qed.

Lemma grows_add_events (st : Engine) (evs : list Event) :
  grows st (add_events st evs).
Proof. split; [cbn; lia|]. split; [done|]. exists evs. done. Qed.

Lemma growing_ret {A} (a : A) : growing (ret a).
Proof. intros st. apply grows_refl. Qed.

Lemma growing_raise {A} (e : Exc) : growing (@raise A e).
Proof. intros st. apply grows_refl. Qed.

Lemma growing_emit (ev : Event) : growing (emit ev).
Proof. intros st. apply grows_add_events. Qed.

Lemma growing_call (o : Outcome) : growing (call o).
Proof. destruct o; [apply growing_ret | apply growing_raise]. Qed.

Lemma growing_bind {A B} (m : M A) (k : A -> M B) :
  growing m -> (forall a, growing (k a)) -> growing (bind m k).
Proof.
  intros Hm Hk st. unfold bind. specialize (Hm st).
  destruct (m st) as [[a|e] st']; cbn in *; [|exact Hm].
  eapply grows_trans; [exact Hm | apply Hk].
Qed.

Lemma growing_try {A} (body : M A) (handler : Exc -> M A) :
  growing body -> (forall e, growing (handler e)) ->
  growing (try_except_Exception body handler).
Proof.
  intros Hb Hh st. unfold try_except_Exception. specialize (Hb st).
  destruct (body st) as [[a|e] st']; cbn in *; [exact Hb|].
  destruct (is_Exception e); [|exact Hb].
  eapply grows_trans; [exact Hb | apply Hh].
Qed.

Lemma growing_put_nowait (item : Request) : growing (put_nowait item).
Proof.
  intros st. split; [cbn; lia|]. split; [done|]. exists [EvQueuePut item]. done.
Qed.

Lemma growing_seen_add (u : string) : growing (seen_add u).
Proof.
  intros st. split; [cbn; lia|]. split; [done|]. exists [EvSeenAdd u]. done.
Qed.

Lemma growing_spiders_getitem (key : string) : growing (spiders_getitem key).
Proof.
  intros st. unfold spiders_getitem. destruct (spiders st !! key); apply grows_refl.
Qed.

Create HintDb growing.
#[local] Hint Resolve growing_ret growing_raise growing_emit growing_call
  growing_put_nowait growing_seen_add growing_spiders_getitem : growing.

Ltac growing_step :=
  repeat first
    [ match goal with
      | |- growing (bind _ _) => apply growing_bind; [|intros ?]
      | |- growing (log _ _ _) => apply growing_emit
      end
    | solve [auto with growing] ].

Section Growing.

Variable request : Request.
Variable spider : SpiderInst.

Lemma growing_process_request_loop (methods : list (Hook RequestFn)) :
  growing (process_request_loop request spider methods).
Proof.
  induction methods as [|h tl IH]; cbn [process_request_loop]; growing_step.
  destruct (negb _); growing_step. destruct (truthy _); growing_step.
Qed.

Lemma growing_process_response_loop (methods : list (Hook ResponseFn))
    (response : Value) :
  growing (process_response_loop request spider methods response).
Proof.
  revert response.
  induction methods as [|h tl IH]; intros response;
    cbn [process_response_loop]; growing_step.
  destruct (negb _); growing_step. destruct (is_Request _); growing_step.
Qed.

Lemma growing_process_exception_loop (methods : list (Hook ExceptionFn))
    (e : Exc) :
  growing (process_exception_loop request spider methods e).
Proof.
  induction methods as [|h tl IH]; cbn [process_exception_loop]; growing_step.
  destruct (negb (_ || _)); growing_step. destruct (negb _); growing_step.
Qed.

Lemma growing_download (self : DownloaderMiddlewareManager)
    (download_func : Request -> string -> SpiderInst -> M Value)
    (logger : string) :
  growing (download_func request logger spider) ->
  growing (download self download_func request logger spider).
Proof.
  intros Hf. unfold download. apply growing_try.
  - apply growing_bind.
    + unfold process_request. apply growing_bind.
      * apply growing_process_request_loop.
      * intros [v|]; growing_step.
    + intros v. unfold process_response.
      destruct (is_None v); growing_step.
      destruct (is_Request v); growing_step.
      apply growing_process_response_loop.
  - intros e. apply growing_process_exception_loop.
Qed.

End Growing.

Section GrowingEngine.

Variable aiohttp_request : string -> NetOutcome.

Lemma growing_fetch (task : Request) (logger : string) (spider : SpiderInst) :
  growing (fetch aiohttp_request task logger spider).
Proof.
  unfold fetch. growing_step.
  destruct (aiohttp_request _) as [raw|e]; growing_step.
  destruct (headers_getitem _ _); growing_step.
  destruct (raw_read raw); growing_step.
Qed.

Lemma growing_distribute_results (results : list Value) (spider : SpiderInst) :
  growing (distribute_results results spider).
Proof.
  induction results as [|result rest IH]; cbn [distribute_results]; growing_step.
  destruct result; growing_step.
Qed.

Lemma growing_scrape_and_route (task : Request) (response : Value)
    (spider : SpiderInst) :
  growing (scrape_and_route task response spider).
Proof.
  unfold scrape_and_route. growing_step.
  destruct (isinstance_Exception _); growing_step.
  - destruct (process_item_methods _); growing_step.
  - repeat case_match; growing_step. apply growing_distribute_results.
Qed.

Lemma growing_classify (task : Request) (response : Value) (spider : SpiderInst) :
  growing (classify task response spider).
Proof.
  unfold classify.
  destruct response as [| |q|e| | |];
    cbn [isinstance_IgnoreRequest isinstance_Exception];
    try apply growing_scrape_and_route.
  - growing_step.
  - destruct (is_IgnoreRequest e); growing_step.
    destruct (is_Exception e); growing_step. apply growing_scrape_and_route.
Qed.

Lemma growing_distribute (task : Request) (logger : string) :
  growing (distribute aiohttp_request task logger).
Proof.
  unfold distribute. growing_step.
  - apply growing_download, growing_fetch.
  - apply growing_classify.
Qed.

End GrowingEngine.

(** ** [Engine.fetch] and the seen set *)

(** C10. For every task, [fetch] adds the task's URL to the seen set before
    it starts the network request: the URL is in the seen set in the state
    [fetch] leaves behind whatever the transport does, the addition comes
    immediately before the GET in the trace, and when the transport faults
    [fetch] raises that fault from a state that already holds the URL. *)
Theorem fetch_records_url_before_request
    (aiohttp_request : string -> NetOutcome)
    (task : Request) (logger : string) (spider : SpiderInst) (st : Engine) :
  url task ∈ seen_urls (snd (fetch aiohttp_request task logger spider st)) /\
  (exists evs,
     trace (snd (fetch aiohttp_request task logger spider st))
       = trace st ++ EvSeenAdd (url task) :: EvNetGet (url task) :: evs) /\
  match aiohttp_request (url task) with
  | NetFail e =>
      fetch aiohttp_request task logger spider st
        = (Err e,
           mkEngine (queue st) (unfinished_tasks st) (spiders st)
             ({[ url task ]} ∪ seen_urls st)
             (trace st ++ [EvSeenAdd (url task); EvNetGet (url task)]))
  | NetOk _ => True
  end.
Proof.
  unfold fetch, bind, seen_add, emit, add_events, log, raise, ret.
  cbn [fst snd queue unfinished_tasks spiders seen_urls trace].
  destruct (aiohttp_request (url task)) as [raw|e].
  - split; [|split; [|done]].
    + destruct (headers_getitem _ _); [destruct (raw_read raw)|];
        cbn; set_solver.
    + destruct (headers_getitem _ _); [destruct (raw_read raw)|];
        cbn; rewrite <- ?app_assoc; eexists; cbn; reflexivity.
  - cbn. rewrite <- app_assoc. split; [set_solver|].
    split; [exists []; done | done].
Qed.

(** ** [Engine.register_spider] *)

(** C9 (as amended). [register_spider] creates the registration (the spider
    instance and three fresh managers) under the instance's name when the
    class's name is not yet a key of the registry, and hands back the
    instance.  When the name is already a key, the registry and the rest of
    the engine are unchanged and the call hands back the argument it was
    given, the spider class; so registering the same class a second time
    changes nothing. *)
Theorem register_spider_registers_once
    (new_spidermw : SpiderMiddlewareManager)
    (new_resultmw : ResultMiddlewareManager)
    (spider : SpiderClass) (self : Engine) :
  let inst := sc_call spider ("Engine." ++ sc_name spider)%string in
  let registered := snd (register_spider new_spidermw new_resultmw spider self) in
  (spiders self !! sc_name spider = None ->
     fst (register_spider new_spidermw new_resultmw spider self) = RefInst inst /\
     spiders registered !! name inst
       = Some (mkSpiderEntry inst new_manager new_spidermw new_resultmw) /\
     (forall key, key ≠ name inst -> spiders registered !! key = spiders self !! key)) /\
  (is_Some (spiders self !! sc_name spider) ->
     register_spider new_spidermw new_resultmw spider self = (RefClass spider, self)) /\
  (name inst = sc_name spider ->
     register_spider new_spidermw new_resultmw spider registered
       = (RefClass spider, registered)).
Proof.
  intros inst registered. subst registered. unfold register_spider.
  split; [|split].
  - intros Hnone. rewrite Hnone. cbn. split; [done|]. split.
    + apply lookup_insert_eq.
    + intros key Hkey. apply lookup_insert_ne. done.
  - intros [entry Hsome]. rewrite Hsome. done.
  - intros Hname. destruct (spiders self !! sc_name spider) as [entry|] eqn:Hl.
    + cbn. rewrite Hl. done.
    + cbn. fold inst. rewrite Hname, lookup_insert_eq. done.
Qed.

Lemma register_spider_registers_once_witness :
  fst (register_spider spidermw0 resultmw0 Spider0 engine0) = RefInst spider0 /\
  register_spider spidermw0 resultmw0 Spider0
      (snd (register_spider spidermw0 resultmw0 Spider0 engine0))
    = (RefClass Spider0, snd (register_spider spidermw0 resultmw0 Spider0 engine0)) /\
  register_spider spidermw0 resultmw0 Spider0 (engine_with new_manager [])
    = (RefClass Spider0, engine_with new_manager []).
Proof.
  pose proof (register_spider_registers_once spidermw0 resultmw0 Spider0 engine0)
    as (Hnew & _ & Hagain).
  pose proof (register_spider_registers_once spidermw0 resultmw0 Spider0
                (engine_with new_manager [])) as (_ & Hknown & _).
  split; [|split].
  - apply Hnew. reflexivity.
  - apply Hagain. reflexivity.
  - apply Hknown. eexists. vm_compute. reflexivity.
Defined.

(** C9, counterexample. After a spider class has been registered, the
    registry holds its instance; registering the class again hands back the
    class, not that instance. *)
Lemma register_spider_again_returns_the_class :
  let self := snd (register_spider spidermw0 resultmw0 Spider0 engine0) in
  spider <$> (spiders self !! "s") = Some spider0 /\
  fst (register_spider spidermw0 resultmw0 Spider0 self) = RefClass Spider0 /\
  fst (register_spider spidermw0 resultmw0 Spider0 self) ≠ RefInst spider0.
Proof.
  vm_compute. split; [reflexivity|]. split; [reflexivity|]. discriminate.
Qed.

(** ** [Engine.distribute] *)

Lemma trace_after_emit {A} (ev : Event) (k : M A) (st : Engine) :
  growing k ->
  exists evs, trace (snd ((let* _ := emit ev in k) st)) = trace st ++ ev :: evs.
Proof.
  intros Hk. unfold bind, emit.
  destruct (Hk (add_events st [ev])) as (_ & _ & evs & Ht).
  exists evs. rewrite Ht. cbn. rewrite <- app_assoc. done.
Qed.

(** With the spider registered, [scrape_and_route] starts by calling the
    scrape operation on the value it was given. *)
Lemma scrape_and_route_scrapes (task : Request) (response : Value)
    (spider : SpiderInst) (entry : SpiderEntry) (st : Engine) :
  spiders st !! name spider = Some entry ->
  exists evs,
    trace (snd (scrape_and_route task response spider st))
      = trace st ++ EvScrape (callback task) response task :: evs.
Proof.
  intros Hentry. unfold scrape_and_route. unfold bind at 1.
  unfold spiders_getitem at 1. rewrite Hentry.
  apply trace_after_emit. growing_step.
  destruct (isinstance_Exception _); growing_step.
  - destruct (process_item_methods _); growing_step.
  - repeat case_match; growing_step.
    apply growing_distribute_results.
Qed.

(** C7 (as amended). [distribute] classifies the value [v] that [download]
    returned: a Task is put at the tail of the queue, and counted as
    unfinished, with nothing else done; an [IgnoreRequest] is logged at
    debug level and dropped; any other [Exception] instance is logged as an
    error and dropped; every other value, a Result among them, is passed to
    the spider chain's scrape operation. *)
Theorem distribute_classifies_download_result
    (aiohttp_request : string -> NetOutcome)
    (task : Request) (logger : string) (st st1 : Engine)
    (entry : SpiderEntry) (v : Value) :
  spiders st !! name (cb_self (callback task)) = Some entry ->
  download (downloadmwmanager entry) (fetch aiohttp_request) task
      (logger ++ ".DownloadMW") (cb_self (callback task))
      (add_events st [EvLog logger INFO (VStr "Got a task: %s (callback: %s)")])
    = (Ok v, st1) ->
  let scraped :=
    exists evs,
      trace (snd (distribute aiohttp_request task logger st))
        = trace st1 ++ EvScrape (callback task) v task :: evs in
  match v with
  | VRequest r =>
      distribute aiohttp_request task logger st
        = (Ok tt,
           mkEngine (queue st1 ++ [r]) (S (unfinished_tasks st1)) (spiders st1)
             (seen_urls st1)
             (trace st1 ++
                [EvLog "Engine" DEBUG
                   (VStr "Got a request from downloader, putting in queue");
                 EvQueuePut r]))
  | VExc e =>
      if is_IgnoreRequest e then
        distribute aiohttp_request task logger st
          = (Ok tt,
             add_events st1
               [EvLog "Engine" DEBUG (VStr "Downloader told us to ignore the request")])
      else if is_Exception e then
        distribute aiohttp_request task logger st
          = (Ok tt, add_events st1 [EvLog "Engine" ERROR (VExc e)])
      else scraped
  | _ => scraped
  end.
Proof.
  intros Hentry Hdl scraped.
  assert (Hd : distribute aiohttp_request task logger st
               = classify task v (cb_self (callback task)) st1).
  { unfold distribute. unfold bind at 1. unfold log, emit.
    unfold bind at 1. unfold spiders_getitem at 1. cbn [spiders add_events].
    rewrite Hentry. unfold bind at 1. rewrite Hdl. done. }
  assert (Hentry1 : spiders st1 !! name (cb_self (callback task)) = Some entry).
  { pose proof (growing_download task (cb_self (callback task))
                  (downloadmwmanager entry) (fetch aiohttp_request)
                  (logger ++ ".DownloadMW")
                  (growing_fetch aiohttp_request task _ _)
                  (add_events st [EvLog logger INFO (VStr "Got a task: %s (callback: %s)")]))
      as (_ & Hs & _).
    rewrite Hdl in Hs. cbn in Hs. rewrite Hs. exact Hentry. }
  assert (Hscrape : classify task v (cb_self (callback task)) st1
                    = scrape_and_route task v (cb_self (callback task)) st1 -> scraped).
  { intros Hc. unfold scraped. rewrite Hd, Hc.
    eapply scrape_and_route_scrapes, Hentry1. }
  destruct v as [|r|q|e|items|s|n]; try (apply Hscrape; reflexivity).
  - rewrite Hd. cbn. unfold put_nowait, add_events. cbn.
    rewrite <- app_assoc. done.
  - unfold classify in *. cbn [isinstance_IgnoreRequest isinstance_Exception] in *.
    destruct (is_IgnoreRequest e); [rewrite Hd; done|].
    destruct (is_Exception e); [rewrite Hd; done|].
    apply Hscrape. reflexivity.
Qed.

(** ** [Engine.consumer] *)

Lemma task_done_acknowledges (st : Engine) :
  0 < unfinished_tasks st -> task_done st = (Ok tt, acknowledged st).
Proof.
  intros Hpos. unfold task_done, acknowledged.
  destruct (unfinished_tasks st); [lia | done].
Qed.

(** X21. What a pass of the worker's loop does with the outcome of
    [distribute], for a worker whose queue is well counted.  Whatever
    [distribute] does, the task is acknowledged with [task_done].  If
    [distribute] returns, or a fault that is none of the four fatal signals
    escapes it (which is logged), the pass ends normally and the worker goes
    on to its next pull.  If one of the four ([KeyboardInterrupt],
    [MemoryError], [SystemExit], [CancelledError]) escapes [distribute], the
    worker does not intercept it: it propagates out of the worker. *)
Theorem worker_outlives_nonfatal_faults
    (aiohttp_request : string -> NetOutcome) (logger : string)
    (self : Engine) (request : Request) (rest : list Request) :
  queue self = request :: rest ->
  length (queue self) <= unfinished_tasks self ->
  match distribute aiohttp_request request logger (pulled self request rest) with
  | (Ok _, st) =>
      0 < unfinished_tasks st /\
      consumer_iteration aiohttp_request logger self = (Continue, acknowledged st) /\
      forall fuel,
        consumer aiohttp_request (S fuel) logger self
          = consumer aiohttp_request fuel logger (acknowledged st)
  | (Err e, st) =>
      0 < unfinished_tasks st /\
      if is_fatal e then
        consumer_iteration aiohttp_request logger self = (Propagate e, acknowledged st) /\
        forall fuel,
          consumer aiohttp_request (S fuel) logger self = (Propagate e, acknowledged st)
      else
        let logged :=
          add_events st [EvLog logger ERROR (VStr "Task distribution failed")] in
        consumer_iteration aiohttp_request logger self = (Continue, acknowledged logged) /\
        forall fuel,
          consumer aiohttp_request (S fuel) logger self
            = consumer aiohttp_request fuel logger (acknowledged logged)
  end.
Proof.
  intros Hq Hlen.
  assert (Hpos : 0 < unfinished_tasks (pulled self request rest)).
  { rewrite Hq in Hlen. cbn in *. lia. }
  pose proof (growing_distribute aiohttp_request request logger
                (pulled self request rest)) as (Hu & _ & _).
  assert (Hit : consumer_iteration aiohttp_request logger self
                = match distribute aiohttp_request request logger
                          (pulled self request rest) with
                  | (Ok _, st) =>
                      match task_done st with
                      | (Ok _, st) => (Continue, st)
                      | (Err e, st) => (Propagate e, st)
                      end
                  | (Err e, st) =>
                      if is_fatal e then
                        match task_done st with
                        | (Ok _, st) => (Propagate e, st)
                        | (Err e', st) => (Propagate e', st)
                        end
                      else
                        match (let* _ := log logger ERROR (VStr "Task distribution failed") in
                               task_done) st with
                        | (Ok _, st) => (Continue, st)
                        | (Err e', st) => (Propagate e', st)
                        end
                  end).
  { unfold consumer_iteration. rewrite Hq. done. }
  cbn [consumer]. rewrite Hit. clear Hit.
  destruct (distribute aiohttp_request request logger (pulled self request rest))
    as [[[]|e] st]; cbn [snd] in Hu.
  - split; [lia|]. rewrite task_done_acknowledges by lia. done.
  - split; [lia|]. destruct (is_fatal e).
    + rewrite task_done_acknowledges by lia. done.
    + unfold bind, log, emit.
      rewrite task_done_acknowledges by (cbn; lia). done.
Qed.

Lemma distribute_classifies_download_result_witness :
  distribute net_up task0 "Engine.exec0"
      (engine_with (chain_of [hq 1 (VRequest task1)] [] []) [])
    = (Ok tt,
       mkEngine [task1] 1
         (spiders (engine_with (chain_of [hq 1 (VRequest task1)] [] []) []))
         ∅
         [got_a_task; EvRequestHook 1 task0;
          EvLog "Engine" DEBUG (VStr "Got a request from downloader, putting in queue");
          EvQueuePut task1]) /\
  distribute (net_down fault0) task0 "Engine.exec0" (engine_with new_manager [])
    = (Ok tt,
       mkEngine [] 0 (spiders (engine_with new_manager [])) ({[ "http://a/" ]} ∪ ∅)
         [got_a_task; EvDownloadFunc task0; EvSeenAdd "http://a/"; EvNetGet "http://a/";
          EvLog "Engine" ERROR (VExc fault0)]).
Proof.
  split.
  - refine (distribute_classifies_download_result net_up task0 "Engine.exec0"
              (engine_with (chain_of [hq 1 (VRequest task1)] [] []) [])
              (add_events (engine_with (chain_of [hq 1 (VRequest task1)] [] []) [])
                 [got_a_task; EvRequestHook 1 task0])
              (mkSpiderEntry spider0 (chain_of [hq 1 (VRequest task1)] [] [])
                 spidermw0 resultmw0)
              (VRequest task1) _ _).
    + vm_compute. reflexivity.
    + reflexivity.
  - pose proof (distribute_classifies_download_result (net_down fault0) task0
                  "Engine.exec0" (engine_with new_manager [])
                  (mkEngine [] 0 (spiders (engine_with new_manager []))
                     ({[ "http://a/" ]} ∪ ∅)
                     [got_a_task; EvDownloadFunc task0; EvSeenAdd "http://a/";
                      EvNetGet "http://a/"])
                  (mkSpiderEntry spider0 new_manager spidermw0 resultmw0)
                  (VExc fault0)) as H.
    cbn [is_IgnoreRequest is_Exception exc_class fault0] in H.
    apply H.
    + vm_compute. reflexivity.
    + reflexivity.
Defined.

(** C7, counterexample. The transport faults and a [process_exception]
    hook answers with a sequence holding one replacement Task: what
    [download] returns is that sequence, which is neither a Task nor a
    fault, and [distribute] passes it, not a Result, to the scrape
    operation. *)
Lemma distribute_scrapes_a_sequence :
  let run :=
    distribute (net_down fault0) task0 "Engine.exec0"
      (engine_with (chain_of [] [] [he 1 retry]) []) in
  fst run = Ok tt /\
  trace (snd run)
    = [got_a_task; EvDownloadFunc task0; EvSeenAdd "http://a/"; EvNetGet "http://a/";
       EvExceptionHook 1 task0 fault0;
       EvScrape parse0 (VList [VRequest task0]) task0;
       EvLog "Engine" WARNING
         (VStr "You have no result pipeline, results will be discarded");
       EvLog "Engine" INFO (VStr "Found %d results (from: %s)")] /\
  is_Response (VList [VRequest task0]) = false.
Proof. vm_compute. repeat split. Qed.

Lemma worker_outlives_nonfatal_faults_witness :
  consumer_iteration net_up "Engine.exec0"
      (engine_scraping spidermw_broken [task0; task1])
    = (Continue,
       acknowledged
         (add_events
            (snd (distribute net_up task0 "Engine.exec0"
                    (pulled (engine_scraping spidermw_broken [task0; task1])
                       task0 [task1])))
            [EvLog "Engine.exec0" ERROR (VStr "Task distribution failed")])) /\
  consumer_iteration net_up "Engine.exec0"
      (engine_scraping spidermw_interrupted [task0; task1])
    = (Propagate interrupt,
       acknowledged
         (snd (distribute net_up task0 "Engine.exec0"
                 (pulled (engine_scraping spidermw_interrupted [task0; task1])
                    task0 [task1])))).
Proof.
  split.
  - pose proof (worker_outlives_nonfatal_faults net_up "Engine.exec0"
                  (engine_scraping spidermw_broken [task0; task1]) task0 [task1]
                  eq_refl (le_n 2)) as H.
    destruct (distribute net_up task0 "Engine.exec0"
                (pulled (engine_scraping spidermw_broken [task0; task1]) task0 [task1]))
      as [[[]|e] st] eqn:Hd; vm_compute in Hd; [discriminate Hd|].
    injection Hd as He Hst. subst e. destruct H as (_ & H & _). exact H.
  - pose proof (worker_outlives_nonfatal_faults net_up "Engine.exec0"
                  (engine_scraping spidermw_interrupted [task0; task1]) task0 [task1]
                  eq_refl (le_n 2)) as H.
    destruct (distribute net_up task0 "Engine.exec0"
                (pulled (engine_scraping spidermw_interrupted [task0; task1])
                   task0 [task1]))
      as [[[]|e] st] eqn:Hd; vm_compute in Hd; [discriminate Hd|].
    injection Hd as He Hst. subst e. destruct H as (_ & H & _). exact H.
Defined.

(** C8, the code at a failing input. A [MemoryError] is raised while the
    worker's task is being fetched (reading the body): [download] catches it
    as an [Exception], [distribute] logs it as an error, and the pass of the
    worker's loop ends normally; the worker then takes the next task, and
    after both tasks it waits on the empty queue.  The signal, one of the
    four that [consumer] itself lists for re-raising, was intercepted and
    did not propagate out of the worker. *)
Lemma memory_error_in_fetch_does_not_propagate :
  let pass :=
    consumer_iteration net_oom "Engine.exec0" (engine_with new_manager [task0; task1]) in
  fst pass = Continue /\
  trace (snd pass)
    = [EvQueueGet task0; got_a_task; EvDownloadFunc task0;
       EvSeenAdd "http://a/"; EvNetGet "http://a/";
       EvLog "Engine" ERROR (VExc oom); EvTaskDone] /\
  is_fatal oom = true /\
  fst (consumer net_oom 3 "Engine.exec0" (engine_with new_manager [task0; task1]))
    = Blocked.
Proof. vm_compute. repeat split. Qed.

(** * Further properties *)

(** ** Relations every method keeps *)

Section Preserved.

Variable R : Engine -> Engine -> Prop.
Variable may_see : string -> Prop.
Hypothesis R_refl : forall st, R st st.
Hypothesis R_trans : forall a b c, R a b -> R b c -> R a c.
Hypothesis R_events : forall st evs, R st (add_events st evs).
Hypothesis R_put : forall st item, R st (snd (put_nowait item st)).
Hypothesis R_seen : forall st u, may_see u -> R st (snd (seen_add u st)).

Lemma preserved_ret {A} (a : A) : preserved R (ret a).
Proof. intros st. apply R_refl. Qed.

Lemma preserved_raise {A} (e : Exc) : preserved R (@raise A e).
Proof. intros st. apply R_refl. Qed.

Lemma preserved_emit (ev : Event) : preserved R (emit ev).
Proof. intros st. apply R_events. Qed.

Lemma preserved_call (o : Outcome) : preserved R (call o).
Proof. destruct o; [apply preserved_ret | apply preserved_raise]. Qed.

Lemma preserved_getitem (key : string) : preserved R (spiders_getitem key).
Proof.
  intros st. unfold spiders_getitem. destruct (spiders st !! key); apply R_refl.
Qed.

Lemma preserved_bind {A B} (m : M A) (k : A -> M B) :
  preserved R m -> (forall a, preserved R (k a)) -> preserved R (bind m k).
Proof.
  intros Hm Hk st. unfold bind. specialize (Hm st).
  destruct (m st) as [[a|e] st']; cbn in *; [|exact Hm].
  eapply R_trans; [exact Hm | apply Hk].
Qed.

Lemma preserved_try {A} (body : M A) (handler : Exc -> M A) :
  preserved R body -> (forall e, preserved R (handler e)) ->
  preserved R (try_except_Exception body handler).
Proof.
  intros Hb Hh st. unfold try_except_Exception. specialize (Hb st).
  destruct (body st) as [[a|e] st']; cbn in *; [exact Hb|].
  destruct (is_Exception e); [|exact Hb].
  eapply R_trans; [exact Hb | apply Hh].
Qed.

Ltac preserved_step :=
  repeat first
    [ match goal with
      | |- preserved _ (bind _ _) => apply preserved_bind; [|intros ?]
      | |- preserved _ (log _ _ _) => apply preserved_emit
      | |- preserved _ (emit _) => apply preserved_emit
      | |- preserved _ (ret _) => apply preserved_ret
      | |- preserved _ (raise _) => apply preserved_raise
      | |- preserved _ (call _) => apply preserved_call
      | |- preserved _ (spiders_getitem _) => apply preserved_getitem
      | |- preserved _ (put_nowait _) => intros ?; apply R_put
      end
    | assumption ].

Lemma preserved_process_request_loop (request : Request) (spider : SpiderInst)
    (methods : list (Hook RequestFn)) :
  preserved R (process_request_loop request spider methods).
Proof.
  induction methods as [|h tl IH]; cbn [process_request_loop]; preserved_step.
  destruct (negb _); preserved_step. destruct (truthy _); preserved_step.
Qed.

Lemma preserved_process_response_loop (request : Request) (spider : SpiderInst)
    (methods : list (Hook ResponseFn)) (response : Value) :
  preserved R (process_response_loop request spider methods response).
Proof.
  revert response.
  induction methods as [|h tl IH]; intros response;
    cbn [process_response_loop]; preserved_step.
  destruct (negb _); preserved_step. destruct (is_Request _); preserved_step.
  apply IH.
Qed.

Lemma preserved_process_exception_loop (request : Request) (spider : SpiderInst)
    (methods : list (Hook ExceptionFn)) (e : Exc) :
  preserved R (process_exception_loop request spider methods e).
Proof.
  induction methods as [|h tl IH]; cbn [process_exception_loop]; preserved_step.
  destruct (negb (_ || _)); preserved_step. destruct (negb _); preserved_step.
Qed.

Lemma preserved_download (self : DownloaderMiddlewareManager)
    (download_func : Request -> string -> SpiderInst -> M Value)
    (request : Request) (logger : string) (spider : SpiderInst) :
  preserved R (download_func request logger spider) ->
  preserved R (download self download_func request logger spider).
Proof.
  intros Hf. unfold download. apply preserved_try.
  - apply preserved_bind.
    + unfold process_request. apply preserved_bind.
      * apply preserved_process_request_loop.
      * intros [v|]; preserved_step.
    + intros v. unfold process_response.
      destruct (is_None v); preserved_step.
      destruct (is_Request v); preserved_step.
      apply preserved_process_response_loop.
  - intros e. apply preserved_process_exception_loop.
Qed.

Lemma preserved_fetch (aiohttp_request : string -> NetOutcome)
    (task : Request) (logger : string) (spider : SpiderInst) :
  may_see (url task) ->
  preserved R (fetch aiohttp_request task logger spider).
Proof.
  intros Hsee. unfold fetch. apply preserved_bind.
  { intros st. apply R_seen, Hsee. }
  intros _. preserved_step.
  destruct (aiohttp_request _) as [raw|e]; preserved_step.
  destruct (headers_getitem _ _); preserved_step.
  destruct (raw_read raw); preserved_step.
Qed.

Lemma preserved_distribute_results (results : list Value) (spider : SpiderInst) :
  preserved R (distribute_results results spider).
Proof.
  induction results as [|result rest IH]; cbn [distribute_results]; preserved_step.
  destruct result; preserved_step.
Qed.

Lemma preserved_scrape_and_route (task : Request) (response : Value)
    (spider : SpiderInst) :
  preserved R (scrape_and_route task response spider).
Proof.
  unfold scrape_and_route. preserved_step.
  destruct (isinstance_Exception _); preserved_step.
  - destruct (process_item_methods _); preserved_step.
  - repeat case_match; preserved_step. apply preserved_distribute_results.
Qed.

Lemma preserved_classify (task : Request) (response : Value) (spider : SpiderInst) :
  preserved R (classify task response spider).
Proof.
  unfold classify.
  destruct response as [| |q|e| | |];
    cbn [isinstance_IgnoreRequest isinstance_Exception];
    try apply preserved_scrape_and_route.
  - preserved_step.
  - destruct (is_IgnoreRequest e); preserved_step.
    destruct (is_Exception e); preserved_step. apply preserved_scrape_and_route.
Qed.

Lemma preserved_distribute (aiohttp_request : string -> NetOutcome)
    (task : Request) (logger : string) :
  may_see (url task) ->
  preserved R (distribute aiohttp_request task logger).
Proof.
  intros Hsee. unfold distribute. preserved_step.
  - apply preserved_download, preserved_fetch, Hsee.
  - apply preserved_classify.
Qed.

End Preserved.

(** ** Queue accounting *)

Lemma accounts_refl (st : Engine) : accounts st st.
Proof.
  exists []. rewrite app_nil_r. cbn. split; [done|]. split; [lia|]. done.
Qed.

Lemma accounts_trans (a b c : Engine) : accounts a b -> accounts b c -> accounts a c.
Proof.
  intros (x & Hq & Hu & Hs & Hv) (y & Hq' & Hu' & Hs' & Hv').
  exists (x ++ y). rewrite Hq', Hq, Hu', Hu, length_app, <- app_assoc.
  split; [done|]. split; [lia|]. split; [congruence | set_solver].
Qed.

Lemma accounts_events (st : Engine) (evs : list Event) :
  accounts st (add_events st evs).
Proof.
  exists []. cbn. rewrite app_nil_r. split; [done|]. split; [lia|]. done.
Qed.

Lemma accounts_put (st : Engine) (item : Request) :
  accounts st (snd (put_nowait item st)).
Proof. exists [item]. cbn. split; [done|]. split; [lia|]. done. Qed.

Lemma accounts_seen (st : Engine) (u : string) :
  True -> accounts st (snd (seen_add u st)).
Proof.
  intros _. exists []. cbn. rewrite app_nil_r.
  split; [done|]. split; [lia|]. split; [done | set_solver].
Qed.

Lemma distribute_accounts (aiohttp_request : string -> NetOutcome)
    (task : Request) (logger : string) :
  preserved accounts (distribute aiohttp_request task logger).
Proof.
  apply (preserved_distribute accounts (fun _ => True)
           accounts_refl accounts_trans accounts_events accounts_put accounts_seen).
  done.
Qed.

(** One pass of the worker's loop keeps the number of tasks in flight, ends
    in an exception only when that exception is one of the four the worker
    re-raises, and reports an empty queue only when the queue is empty. *)
Lemma consumer_iteration_in_flight
    (aiohttp_request : string -> NetOutcome) (logger : string)
    (self : Engine) (k : nat) :
  in_flight k self ->
  in_flight k (snd (consumer_iteration aiohttp_request logger self)) /\
  match fst (consumer_iteration aiohttp_request logger self) with
  | Propagate e => is_fatal e = true
  | Blocked => queue (snd (consumer_iteration aiohttp_request logger self)) = []
  | Continue => True
  end.
Proof.
  unfold in_flight, consumer_iteration. intros Hk.
  destruct (queue self) as [|request rest] eqn:Hq; [cbn; rewrite Hq; done|].
  match goal with |- context [distribute _ _ _ ?s] => set (st0 := s) end.
  destruct (distribute_accounts aiohttp_request request logger st0)
    as (added & Hqa & Hua & _).
  cbn [length] in Hk. subst st0. cbn [queue unfinished_tasks] in Hqa, Hua.
  destruct (distribute aiohttp_request request logger _) as [[[]|e] st];
    cbn [snd] in Hqa, Hua.
  - rewrite task_done_acknowledges by lia. cbn.
    rewrite Hqa, length_app. split; [lia | done].
  - destruct (is_fatal e) eqn:Hf.
    + rewrite task_done_acknowledges by lia. cbn.
      rewrite Hqa, length_app. split; [lia | done].
    + unfold bind, log, emit. rewrite task_done_acknowledges by (cbn; lia). cbn.
      rewrite Hqa, length_app. split; [lia | done].
Qed.

Lemma consumer_in_flight
    (aiohttp_request : string -> NetOutcome) (logger : string)
    (fuel : nat) (self : Engine) (k : nat) :
  in_flight k self ->
  in_flight k (snd (consumer aiohttp_request fuel logger self)) /\
  match fst (consumer aiohttp_request fuel logger self) with
  | Propagate e => is_fatal e = true
  | Blocked => queue (snd (consumer aiohttp_request fuel logger self)) = []
  | Continue => True
  end.
Proof.
  revert self. induction fuel as [|fuel IH]; intros self Hk; [cbn; done|].
  cbn [consumer].
  destruct (consumer_iteration_in_flight aiohttp_request logger self k Hk)
    as [Hk' Hstop].
  destruct (consumer_iteration aiohttp_request logger self) as [[| |e] st];
    cbn [fst snd] in *.
  - done.
  - apply IH, Hk'.
  - done.
Qed.

(** X1. The worker loop keeps the queue's bookkeeping: if every queued task
    is counted as unfinished and [k] more tasks are in flight when the
    worker starts, the same holds after any number of passes, however each
    pass ended. *)
Theorem worker_keeps_queue_accounting
    (aiohttp_request : string -> NetOutcome) (logger : string)
    (fuel : nat) (self : Engine) (k : nat) :
  unfinished_tasks self = length (queue self) + k ->
  let st := snd (consumer aiohttp_request fuel logger self) in
  unfinished_tasks st = length (queue st) + k.
Proof.
  intros Hk. apply (consumer_in_flight aiohttp_request logger fuel self k Hk).
Qed.

(** X2. A worker whose queue is well counted leaves its loop only through
    one of the four exceptions it re-raises ([KeyboardInterrupt],
    [MemoryError], [SystemExit], [CancelledError]): no other exception,
    and in particular no [ValueError] from [task_done], ever comes out of
    it. *)
Theorem worker_stops_only_on_fatal_signal
    (aiohttp_request : string -> NetOutcome) (logger : string)
    (fuel : nat) (self : Engine) (k : nat) (e : Exc) :
  unfinished_tasks self = length (queue self) + k ->
  fst (consumer aiohttp_request fuel logger self) = Propagate e ->
  is_fatal e = true.
Proof.
  intros Hk He.
  destruct (consumer_in_flight aiohttp_request logger fuel self k Hk) as [_ H].
  rewrite He in H. exact H.
Qed.

(** X3. In a run of one worker, with no other worker running in between:
    if the count of unfinished tasks was the length of the queue plus [k]
    when the worker started, then whenever it is suspended on [get] the
    count is exactly [k].  Every task it pulled, and every task that was
    queued while it ran, has been acknowledged; with [k = 0] this is the
    state in which [queue.join()] completes. *)
Theorem blocked_worker_has_drained_queue
    (aiohttp_request : string -> NetOutcome) (logger : string)
    (fuel : nat) (self : Engine) (k : nat) :
  unfinished_tasks self = length (queue self) + k ->
  fst (consumer aiohttp_request fuel logger self) = Blocked ->
  unfinished_tasks (snd (consumer aiohttp_request fuel logger self)) = k.
Proof.
  intros Hk Hb.
  destruct (consumer_in_flight aiohttp_request logger fuel self k Hk) as [Hi H].
  rewrite Hb in H. unfold in_flight in Hi. rewrite H in Hi. exact Hi.
Qed.

Lemma worker_keeps_queue_accounting_witness :
  let st := snd (consumer net_up 1 "Engine.exec0"
                   (engine_with (chain_of [hq 1 (VRequest task1)] [] []) [task0])) in
  unfinished_tasks st = length (queue st) + 0.
Proof.
  apply (worker_keeps_queue_accounting net_up "Engine.exec0" 1
           (engine_with (chain_of [hq 1 (VRequest task1)] [] []) [task0]) 0).
  reflexivity.
Defined.

Lemma worker_stops_only_on_fatal_signal_witness : is_fatal interrupt = true.
Proof.
  apply (worker_stops_only_on_fatal_signal net_up "Engine.exec0" 3
           (engine_scraping spidermw_interrupted [task0; task1]) 0 interrupt).
  - reflexivity.
  - vm_compute. reflexivity.
Defined.

Lemma blocked_worker_has_drained_queue_witness :
  unfinished_tasks
    (snd (consumer net_oom 3 "Engine.exec0" (engine_with new_manager [task0; task1])))
  = 0.
Proof.
  apply (blocked_worker_has_drained_queue net_oom "Engine.exec0" 3
           (engine_with new_manager [task0; task1]) 0).
  - reflexivity.
  - vm_compute. reflexivity.
Defined.

(** ** More on [download] *)

Lemma process_request_reaches_fetch
    (self : DownloaderMiddlewareManager)
    (download_func : Request -> string -> SpiderInst -> M Value)
    (request : Request) (logger : string) (spider : SpiderInst) (st : Engine) :
  Forall (fun h => hook_call h request spider = Ret VNone)
    (process_request_methods self) ->
  process_request self download_func request logger spider st
    = download_func request logger spider
        (add_events st
           (req_events request (process_request_methods self)
              ++ [EvDownloadFunc request])).
Proof.
  intros Hall. unfold process_request. unfold bind at 1.
  rewrite <- (app_nil_r (process_request_methods self)) at 1.
  rewrite process_request_loop_None by exact Hall.
  cbn [process_request_loop ret]. unfold bind, emit.
  rewrite add_events_app. done.
Qed.

(** X4. When every [process_request] hook returns [None], each of them is
    invoked once, in the stored order and with the task [download] was
    given, and then the download function is invoked, once, with that same
    task: a hook has no way to hand a different task to the fetch. *)
Theorem request_hooks_returning_none_reach_fetch
    (self : DownloaderMiddlewareManager)
    (download_func : Request -> string -> SpiderInst -> M Value)
    (request : Request) (logger : string) (spider : SpiderInst) (st : Engine) :
  Forall (fun h => hook_call h request spider = Ret VNone)
    (process_request_methods self) ->
  process_request self download_func request logger spider st
    = download_func request logger spider
        (add_events st
           (req_events request (process_request_methods self)
              ++ [EvDownloadFunc request])).
Proof. apply process_request_reaches_fetch. Qed.

Lemma request_hooks_returning_none_reach_fetch_witness :
  process_request (chain_of [hq 1 VNone; hq 2 VNone] [] []) fetch_ok task0
      "exec0" spider0 engine0
    = (Ok (VResponse resp0),
       add_events engine0
         [EvRequestHook 1 task0; EvRequestHook 2 task0; EvDownloadFunc task0]).
Proof.
  apply (request_hooks_returning_none_reach_fetch
           (chain_of [hq 1 VNone; hq 2 VNone] [] []) fetch_ok task0 "exec0"
           spider0 engine0).
  repeat constructor.
Defined.

(** X5. On a chain without hooks [download] is the download function with
    its faults turned into values: what the function returns is returned as
    it is, except that [None] becomes an [AssertionError] value; an
    [Exception] it raises is returned as a value; any other exception it
    raises propagates. *)
Theorem download_without_hooks
    (self : DownloaderMiddlewareManager)
    (download_func : Request -> string -> SpiderInst -> M Value)
    (request : Request) (logger : string) (spider : SpiderInst) (st : Engine) :
  process_request_methods self = [] ->
  process_response_methods self = [] ->
  process_exception_methods self = [] ->
  download self download_func request logger spider st
    = match download_func request logger spider
              (add_events st [EvDownloadFunc request]) with
      | (Ok v, st') =>
          if is_None v
          then (Ok (VExc (assertion "Received None in process_response")), st')
          else (Ok v, st')
      | (Err e, st') =>
          if is_Exception e then (Ok (VExc e), st') else (Err e, st')
      end.
Proof.
  intros Hq Hr He.
  unfold download, try_except_Exception, process_request, process_response,
    process_exception.
  rewrite Hq, Hr, He. cbn [process_request_loop]. unfold bind, ret, emit.
  destruct (download_func request logger spider _) as [[v|e] st']; [|done].
  destruct v; done.
Qed.

Lemma download_without_hooks_witness :
  download new_manager (fun _ _ _ => ret VNone) task0 "exec0" spider0 engine0
    = (Ok (VExc (assertion "Received None in process_response")),
       add_events engine0 [EvDownloadFunc task0]) /\
  download new_manager (fetch_fails fault0) task0 "exec0" spider0 engine0
    = (Ok (VExc fault0), add_events engine0 [EvDownloadFunc task0]) /\
  download new_manager (fetch_fails interrupt) task0 "exec0" spider0 engine0
    = (Err interrupt, add_events engine0 [EvDownloadFunc task0]).
Proof.
  split; [|split].
  - rewrite (download_without_hooks new_manager (fun _ _ _ => ret VNone) task0
               "exec0" spider0 engine0 eq_refl eq_refl eq_refl).
    reflexivity.
  - rewrite (download_without_hooks new_manager (fetch_fails fault0) task0
               "exec0" spider0 engine0 eq_refl eq_refl eq_refl).
    reflexivity.
  - rewrite (download_without_hooks new_manager (fetch_fails interrupt) task0
               "exec0" spider0 engine0 eq_refl eq_refl eq_refl).
    reflexivity.
Defined.

(** X6. On a chain without [process_exception] hooks [download] never
    raises an [Exception]: an exception that comes out of it is one that
    [except Exception] does not catch. *)
Theorem download_without_exception_hooks_raises_no_Exception
    (self : DownloaderMiddlewareManager)
    (download_func : Request -> string -> SpiderInst -> M Value)
    (request : Request) (logger : string) (spider : SpiderInst) (st : Engine)
    (e : Exc) :
  process_exception_methods self = [] ->
  fst (download self download_func request logger spider st) = Err e ->
  is_Exception e = false.
Proof.
  intros He. unfold download, try_except_Exception, process_exception.
  rewrite He. cbn [process_exception_loop]. unfold ret.
  destruct ((let* resp := process_request self download_func request logger spider in
             process_response self request spider resp) st) as [[v|e0] st'];
    cbn; [discriminate|].
  destruct (is_Exception e0) eqn:Hx; cbn; [discriminate|].
  intros [= ->]. exact Hx.
Qed.

Lemma download_without_exception_hooks_raises_no_Exception_witness :
  is_Exception interrupt = false.
Proof.
  apply (download_without_exception_hooks_raises_no_Exception
           (chain_of [hq 1 VNone] [hr 2 VNone] []) (fetch_fails interrupt)
           task0 "exec0" spider0 engine0 interrupt); reflexivity.
Defined.

(** X7. [download] does raise when a [process_exception] hook misbehaves.
    With a fault (an [Exception]) raised by the request phase, the download
    function or the response phase, and the hooks before [h] having returned
    [None]: if [h] itself raises, that exception comes out of [download];
    if [h] returns something that is neither [None] nor iterable, an
    [AssertionError] whose message ends in the printed type of that value
    comes out of [download].  Either way the hooks after
    [h] are not invoked and the original fault is lost. *)
Theorem exception_hook_fault_escapes_download
    (self : DownloaderMiddlewareManager)
    (download_func : Request -> string -> SpiderInst -> M Value)
    (request : Request) (logger : string) (spider : SpiderInst)
    (st st1 : Engine) (e : Exc)
    (pre post : list (Hook ExceptionFn)) (h : Hook ExceptionFn) :
  (let* resp := process_request self download_func request logger spider in
   process_response self request spider resp) st = (Err e, st1) ->
  is_Exception e = true ->
  process_exception_methods self = pre ++ h :: post ->
  Forall (fun h' => hook_call h' request e spider = Ret VNone) pre ->
  (forall e', hook_call h request e spider = Raise e' ->
     download self download_func request logger spider st
       = (Err e', add_events st1 (exc_events request e (pre ++ [h])))) /\
  (forall v, hook_call h request e spider = Ret v ->
     is_None v = false -> _isiterable v = false ->
     download self download_func request logger spider st
       = (Err (assertion
                 ("Middleware method must returns None, or an iterable object, got "
                    ++ type_repr v)),
          add_events st1 (exc_events request e (pre ++ [h])))).
Proof.
  intros Hrun He Hm Hpre.
  assert (Hd : download self download_func request logger spider st
               = process_exception_loop request spider (h :: post) e
                   (add_events st1 (exc_events request e pre))).
  { unfold download, try_except_Exception. rewrite Hrun, He.
    unfold process_exception. rewrite Hm.
    apply process_exception_loop_None, Hpre. }
  rewrite Hd. cbn [process_exception_loop]. unfold bind, emit. cbv beta iota.
  unfold exc_events. rewrite fmap_app, <- add_events_app. split.
  - intros e' Hh. rewrite Hh. done.
  - intros v Hh Hn Hi. rewrite Hh. cbn [call ret]. rewrite Hn, Hi. done.
Qed.

Lemma exception_hook_fault_escapes_download_witness :
  download (chain_of [] [] [he 1 VNone; mkHook 2 (fun _ _ _ => Raise oom); he 3 retry])
      (fetch_fails fault0) task0 "exec0" spider0 engine0
    = (Err oom,
       add_events engine0
         [EvDownloadFunc task0; EvExceptionHook 1 task0 fault0;
          EvExceptionHook 2 task0 fault0]) /\
  download (chain_of [] [] [he 1 VNone; he 2 (VInt 7); he 3 retry])
      (fetch_fails fault0) task0 "exec0" spider0 engine0
    = (Err (assertion
              "Middleware method must returns None, or an iterable object, got <class 'int'>"),
       add_events engine0
         [EvDownloadFunc task0; EvExceptionHook 1 task0 fault0;
          EvExceptionHook 2 task0 fault0]).
Proof.
  split.
  - apply (proj1 (exception_hook_fault_escapes_download
                    (chain_of [] [] [he 1 VNone; mkHook 2 (fun _ _ _ => Raise oom);
                                     he 3 retry])
                    (fetch_fails fault0) task0 "exec0" spider0 engine0
                    (add_events engine0 [EvDownloadFunc task0]) fault0
                    [he 1 VNone] [he 3 retry] (mkHook 2 (fun _ _ _ => Raise oom))
                    eq_refl eq_refl eq_refl
                    ltac:(repeat constructor)) oom).
    reflexivity.
  - apply (proj2 (exception_hook_fault_escapes_download
                    (chain_of [] [] [he 1 VNone; he 2 (VInt 7); he 3 retry])
                    (fetch_fails fault0) task0 "exec0" spider0 engine0
                    (add_events engine0 [EvDownloadFunc task0]) fault0
                    [he 1 VNone] [he 3 retry] (he 2 (VInt 7))
                    eq_refl eq_refl eq_refl
                    ltac:(repeat constructor)) (VInt 7));
      reflexivity.
Defined.

(** X8. When the response phase runs to its end, [download] returns what
    the last stored [process_response] hook returned, whatever that hook
    was given and whatever the download function had returned, a [None]
    included. *)
Theorem response_phase_returns_last_hook_value
    (self : DownloaderMiddlewareManager)
    (download_func : Request -> string -> SpiderInst -> M Value)
    (request : Request) (logger : string) (spider : SpiderInst) (st : Engine)
    (pre : list (Hook ResponseFn)) (h : Hook ResponseFn)
    (v0 v1 v : Value) (st0 st1 : Engine) :
  process_response_methods self = pre ++ [h] ->
  process_request self download_func request logger spider st = (Ok v0, st0) ->
  is_None v0 = false -> is_Request v0 = false ->
  process_response_loop request spider pre v0 st0 = (Ok v1, st1) ->
  is_Request v1 = false ->
  hook_call h request v1 spider = Ret v ->
  contract_violation v = false ->
  download self download_func request logger spider st
    = (Ok v, add_events st1 [EvResponseHook (hook_owner h) request v1]).
Proof.
  intros Hm Hp Hn Hq Hl Hq1 Hh Hc.
  erewrite download_at_response_hook by eauto.
  unfold try_except_Exception. cbn [process_response_loop].
  unfold bind, emit. cbv beta iota. rewrite Hh. cbn [call ret].
  unfold contract_violation in Hc. rewrite Hc.
  destruct (is_Request v); done.
Qed.

Lemma response_phase_returns_last_hook_value_witness :
  download (chain_of [] [hr 1 (VResponse resp0); hr 2 VNone] []) fetch_ok task0
      "exec0" spider0 engine0
    = (Ok VNone,
       add_events engine0
         [EvDownloadFunc task0; EvResponseHook 1 task0 (VResponse resp0);
          EvResponseHook 2 task0 (VResponse resp0)]).
Proof.
  apply (response_phase_returns_last_hook_value
           (chain_of [] [hr 1 (VResponse resp0); hr 2 VNone] []) fetch_ok task0
           "exec0" spider0 engine0 [hr 1 (VResponse resp0)] (hr 2 VNone)
           (VResponse resp0) (VResponse resp0) VNone
           (add_events engine0 [EvDownloadFunc task0])
           (add_events engine0
              [EvDownloadFunc task0; EvResponseHook 1 task0 (VResponse resp0)]));
    reflexivity.
Defined.

Lemma process_response_loop_contract (request : Request) (spider : SpiderInst)
    (methods : list (Hook ResponseFn)) (response v : Value) (st st' : Engine) :
  methods <> [] ->
  process_response_loop request spider methods response st = (Ok v, st') ->
  contract_violation v = false.
Proof.
  revert response st. induction methods as [|h tl IH]; intros response st Hne; [done|].
  cbn [process_response_loop]. unfold bind, emit. cbv beta iota.
  destruct (hook_call h request response spider) as [v1|e]; cbn [call ret raise];
    [|discriminate].
  destruct (negb _) eqn:Hc; [discriminate|].
  fold (contract_violation v1) in Hc.
  destruct (is_Request v1) eqn:Hq.
  - unfold ret. intros [= <- _]. exact Hc.
  - destruct tl as [|h' tl'].
    + cbn. intros [= <- _]. exact Hc.
    + apply IH. done.
Qed.

(** X9. With at least one [process_response] hook on the chain, a value
    that comes out of the request, fetch and response phases without an
    exception is [None], a Result or a Task: the asserts let nothing else
    through, whatever the download function returned. *)
Theorem response_phase_value_respects_contract
    (self : DownloaderMiddlewareManager)
    (download_func : Request -> string -> SpiderInst -> M Value)
    (request : Request) (logger : string) (spider : SpiderInst)
    (st st' : Engine) (v : Value) :
  process_response_methods self <> [] ->
  (let* resp := process_request self download_func request logger spider in
   process_response self request spider resp) st = (Ok v, st') ->
  is_None v || is_Response v || is_Request v = true.
Proof.
  intros Hne. unfold bind.
  destruct (process_request self download_func request logger spider st)
    as [[v0|e] st0]; [|discriminate].
  unfold process_response.
  destruct (is_None v0); [discriminate|].
  destruct (is_Request v0) eqn:Hq.
  - unfold ret. intros [= <- _]. rewrite Hq. apply orb_true_r.
  - intros Hl. apply process_response_loop_contract in Hl; [|exact Hne].
    unfold contract_violation in Hl. apply negb_false_iff in Hl. exact Hl.
Qed.

Lemma response_phase_value_respects_contract_witness :
  is_None (VResponse resp0) || is_Response (VResponse resp0)
    || is_Request (VResponse resp0) = true.
Proof.
  apply (response_phase_value_respects_contract
           (chain_of [] [hr 1 (VResponse resp0)] []) (fun _ _ _ => ret (VInt 7))
           task0 "exec0" spider0 engine0
           (add_events engine0
              [EvDownloadFunc task0; EvResponseHook 1 task0 (VInt 7)])
           (VResponse resp0)).
  - discriminate.
  - reflexivity.
Defined.

(** ** More on [distribute] and the worker *)

Lemma distribute_is_classify
    (aiohttp_request : string -> NetOutcome)
    (task : Request) (logger : string) (st st1 : Engine)
    (entry : SpiderEntry) (v : Value) :
  spiders st !! name (cb_self (callback task)) = Some entry ->
  download (downloadmwmanager entry) (fetch aiohttp_request) task
      (logger ++ ".DownloadMW") (cb_self (callback task))
      (add_events st [EvLog logger INFO (VStr "Got a task: %s (callback: %s)")])
    = (Ok v, st1) ->
  distribute aiohttp_request task logger st
    = classify task v (cb_self (callback task)) st1.
Proof.
  intros Hentry Hdl. unfold distribute. unfold bind at 1. unfold log, emit.
  unfold bind at 1. unfold spiders_getitem at 1. cbn [spiders add_events].
  rewrite Hentry. unfold bind at 1. rewrite Hdl. done.
Qed.

Lemma distribute_download_raises
    (aiohttp_request : string -> NetOutcome)
    (task : Request) (logger : string) (st st1 : Engine)
    (entry : SpiderEntry) (e : Exc) :
  spiders st !! name (cb_self (callback task)) = Some entry ->
  download (downloadmwmanager entry) (fetch aiohttp_request) task
      (logger ++ ".DownloadMW") (cb_self (callback task))
      (add_events st [EvLog logger INFO (VStr "Got a task: %s (callback: %s)")])
    = (Err e, st1) ->
  distribute aiohttp_request task logger st = (Err e, st1).
Proof.
  intros Hentry Hdl. unfold distribute. unfold bind at 1. unfold log, emit.
  unfold bind at 1. unfold spiders_getitem at 1. cbn [spiders add_events].
  rewrite Hentry. unfold bind at 1. rewrite Hdl. done.
Qed.

(** One pass of the worker's loop on a non-empty, well counted queue, by
    what [distribute] did. *)
Lemma consumer_iteration_after_distribute
    (aiohttp_request : string -> NetOutcome) (logger : string)
    (self : Engine) (request : Request) (rest : list Request) :
  queue self = request :: rest ->
  0 < unfinished_tasks self ->
  consumer_iteration aiohttp_request logger self
    = match distribute aiohttp_request request logger (pulled self request rest) with
      | (Ok _, st) => (Continue, acknowledged st)
      | (Err e, st) =>
          if is_fatal e then (Propagate e, acknowledged st)
          else (Continue,
                acknowledged
                  (add_events st [EvLog logger ERROR (VStr "Task distribution failed")]))
      end.
Proof.
  intros Hq Hpos. unfold consumer_iteration. rewrite Hq. fold (pulled self request rest).
  pose proof (growing_distribute aiohttp_request request logger
                (pulled self request rest)) as (Hu & _ & _).
  destruct (distribute aiohttp_request request logger (pulled self request rest))
    as [[[]|e] st]; cbn [snd pulled unfinished_tasks] in Hu.
  - rewrite task_done_acknowledges by lia. done.
  - destruct (is_fatal e).
    + rewrite task_done_acknowledges by lia. done.
    + unfold bind, log, emit. rewrite task_done_acknowledges by (cbn; lia). done.
Qed.

(** X10. A task whose spider is not in the registry costs the worker
    nothing but two log lines: [distribute] raises the [KeyError] of the
    registry lookup before any hook or fetch, the worker logs the failure,
    acknowledges the task and goes on; the seen set and the rest of the
    queue are untouched. *)
Theorem unregistered_spider_task_is_dropped
    (aiohttp_request : string -> NetOutcome) (logger : string)
    (self : Engine) (task : Request) (rest : list Request) :
  queue self = task :: rest ->
  0 < unfinished_tasks self ->
  spiders self !! name (cb_self (callback task)) = None ->
  consumer_iteration aiohttp_request logger self
    = (Continue,
       mkEngine rest (pred (unfinished_tasks self)) (spiders self) (seen_urls self)
         (trace self ++
            [EvQueueGet task;
             EvLog logger INFO (VStr "Got a task: %s (callback: %s)");
             EvLog logger ERROR (VStr "Task distribution failed");
             EvTaskDone])).
Proof.
  intros Hq Hpos Hnone.
  rewrite (consumer_iteration_after_distribute _ _ _ _ _ Hq Hpos).
  unfold distribute. unfold bind at 1. unfold log, emit. unfold bind at 1.
  unfold spiders_getitem at 1. cbn [spiders add_events pulled].
  rewrite Hnone. cbn. unfold acknowledged, add_events. cbn.
  rewrite <- !app_assoc. done.
Qed.

Lemma unregistered_spider_task_is_dropped_witness :
  consumer_iteration net_up "Engine.exec0" (mkEngine [task0; task1] 2 ∅ ∅ [])
    = (Continue,
       mkEngine [task1] 1 ∅ ∅
         [EvQueueGet task0; got_a_task;
          EvLog "Engine.exec0" ERROR (VStr "Task distribution failed");
          EvTaskDone]).
Proof.
  apply (unregistered_spider_task_is_dropped net_up "Engine.exec0"
           (mkEngine [task0; task1] 2 ∅ ∅ []) task0 [task1]).
  - reflexivity.
  - cbn. lia.
  - reflexivity.
Defined.

Lemma fetch_transport_fault (aiohttp_request : string -> NetOutcome)
    (task : Request) (logger : string) (spider : SpiderInst) (st : Engine) (e : Exc) :
  aiohttp_request (url task) = NetFail e ->
  fetch aiohttp_request task logger spider st
    = (Err e,
       mkEngine (queue st) (unfinished_tasks st) (spiders st)
         ({[ url task ]} ∪ seen_urls st)
         (trace st ++ [EvSeenAdd (url task); EvNetGet (url task)])).
Proof.
  intros Hnet. unfold fetch, bind, seen_add, emit, add_events, raise.
  cbn [fst snd queue unfinished_tasks spiders seen_urls trace].
  rewrite Hnet. rewrite <- app_assoc. done.
Qed.

(** X11. A [KeyboardInterrupt], [SystemExit] or [CancelledError] raised by
    the transport goes all the way out of the worker: with the task's
    spider registered and every request hook returning [None], [download]
    does not catch it, no [process_exception] hook sees it, [distribute]
    lets it through, and the worker acknowledges the task and re-raises.
    The task's URL has been recorded as seen. *)
Theorem fatal_signal_from_transport_stops_worker
    (aiohttp_request : string -> NetOutcome) (logger : string)
    (self : Engine) (task : Request) (rest : list Request)
    (entry : SpiderEntry) (e : Exc) :
  queue self = task :: rest ->
  0 < unfinished_tasks self ->
  spiders self !! name (cb_self (callback task)) = Some entry ->
  Forall (fun h => hook_call h task (cb_self (callback task)) = Ret VNone)
    (process_request_methods (downloadmwmanager entry)) ->
  aiohttp_request (url task) = NetFail e ->
  is_Exception e = false ->
  is_fatal e = true ->
  consumer_iteration aiohttp_request logger self
    = (Propagate e,
       mkEngine rest (pred (unfinished_tasks self)) (spiders self)
         ({[ url task ]} ∪ seen_urls self)
         (trace self
            ++ [EvQueueGet task;
                EvLog logger INFO (VStr "Got a task: %s (callback: %s)")]
            ++ req_events task (process_request_methods (downloadmwmanager entry))
            ++ [EvDownloadFunc task; EvSeenAdd (url task); EvNetGet (url task);
                EvTaskDone])).
Proof.
  intros Hq Hpos Hentry Hall Hnet Hx Hf.
  rewrite (consumer_iteration_after_distribute _ _ _ _ _ Hq Hpos).
  erewrite distribute_download_raises; [| exact Hentry |].
  2: { unfold download, try_except_Exception, bind.
       rewrite process_request_reaches_fetch by exact Hall.
       rewrite (fetch_transport_fault _ _ _ _ _ e Hnet). rewrite Hx. reflexivity. }
  rewrite Hf. unfold acknowledged, add_events, pulled. cbn.
  rewrite <- !app_assoc. done.
Qed.

Lemma fatal_signal_from_transport_stops_worker_witness :
  consumer_iteration (net_down interrupt) "Engine.exec0"
      (engine_with (chain_of [hq 1 VNone] [] [he 2 retry]) [task0; task1])
    = (Propagate interrupt,
       mkEngine [task1] 1
         (spiders (engine_with (chain_of [hq 1 VNone] [] [he 2 retry]) [task0; task1]))
         ({[ "http://a/" ]} ∪ ∅)
         [EvQueueGet task0; got_a_task; EvRequestHook 1 task0; EvDownloadFunc task0;
          EvSeenAdd "http://a/"; EvNetGet "http://a/"; EvTaskDone]).
Proof.
  apply (fatal_signal_from_transport_stops_worker (net_down interrupt) "Engine.exec0"
           (engine_with (chain_of [hq 1 VNone] [] [he 2 retry]) [task0; task1])
           task0 [task1]
           (mkSpiderEntry spider0 (chain_of [hq 1 VNone] [] [he 2 retry])
              spidermw0 resultmw0)
           interrupt).
  - reflexivity.
  - cbn. lia.
  - vm_compute. reflexivity.
  - repeat constructor.
  - reflexivity.
  - reflexivity.
  - reflexivity.
Defined.

(** X12. A task that a request hook replaces is requeued at the tail: when
    a [process_request] hook returns a Task for the task the worker pulled,
    the pass ends with that Task behind everything that was queued, the
    count of unfinished tasks as it was before the pull, and nothing
    fetched or recorded as seen. *)
Theorem replaced_task_is_requeued_at_tail
    (aiohttp_request : string -> NetOutcome) (logger : string)
    (self : Engine) (task r : Request) (rest : list Request)
    (entry : SpiderEntry)
    (pre post : list (Hook RequestFn)) (h : Hook RequestFn) :
  queue self = task :: rest ->
  0 < unfinished_tasks self ->
  spiders self !! name (cb_self (callback task)) = Some entry ->
  process_request_methods (downloadmwmanager entry) = pre ++ h :: post ->
  Forall (fun h' => hook_call h' task (cb_self (callback task)) = Ret VNone) pre ->
  hook_call h task (cb_self (callback task)) = Ret (VRequest r) ->
  consumer_iteration aiohttp_request logger self
    = (Continue,
       mkEngine (rest ++ [r]) (unfinished_tasks self) (spiders self) (seen_urls self)
         (trace self
            ++ [EvQueueGet task;
                EvLog logger INFO (VStr "Got a task: %s (callback: %s)")]
            ++ req_events task (pre ++ [h])
            ++ [EvLog "Engine" DEBUG
                  (VStr "Got a request from downloader, putting in queue");
                EvQueuePut r; EvTaskDone])).
Proof.
  intros Hq Hpos Hentry Hm Hpre Hh.
  rewrite (consumer_iteration_after_distribute _ _ _ _ _ Hq Hpos).
  erewrite distribute_is_classify; [| exact Hentry |].
  2: { unfold download, try_except_Exception, bind.
       erewrite process_request_early by eauto. reflexivity. }
  cbn. unfold acknowledged, put_nowait, add_events, pulled. cbn.
  rewrite <- !app_assoc. done.
Qed.

Lemma replaced_task_is_requeued_at_tail_witness :
  consumer_iteration net_up "Engine.exec0"
      (engine_with (chain_of [hq 1 VNone; hq 2 (VRequest task1)] [] []) [task0; task0])
    = (Continue,
       mkEngine [task0; task1] 2
         (spiders (engine_with (chain_of [hq 1 VNone; hq 2 (VRequest task1)] [] [])
                     [task0; task0]))
         ∅
         [EvQueueGet task0; got_a_task; EvRequestHook 1 task0; EvRequestHook 2 task0;
          EvLog "Engine" DEBUG (VStr "Got a request from downloader, putting in queue");
          EvQueuePut task1; EvTaskDone]).
Proof.
  apply (replaced_task_is_requeued_at_tail net_up "Engine.exec0"
           (engine_with (chain_of [hq 1 VNone; hq 2 (VRequest task1)] [] [])
              [task0; task0])
           task0 task1 [task0]
           (mkSpiderEntry spider0 (chain_of [hq 1 VNone; hq 2 (VRequest task1)] [] [])
              spidermw0 resultmw0)
           [hq 1 VNone] [] (hq 2 (VRequest task1))).
  - reflexivity.
  - cbn. lia.
  - vm_compute. reflexivity.
  - reflexivity.
  - repeat constructor.
  - reflexivity.
Defined.

(** X13. A fault of the fetch that no hook resolves costs one task and one
    log line: with the task's spider registered, every request hook
    returning [None], [fetch] raising an [Exception] and every
    [process_exception] hook returning [None] for it, [distribute] returns
    normally after logging the fault (at debug level for [IgnoreRequest], as
    an error otherwise); nothing is scraped and nothing is queued. *)
Theorem unresolved_fetch_fault_is_logged_and_dropped
    (aiohttp_request : string -> NetOutcome) (logger : string)
    (st st2 : Engine) (task : Request) (entry : SpiderEntry) (e : Exc) :
  let spider := cb_self (callback task) in
  let chain := downloadmwmanager entry in
  spiders st !! name spider = Some entry ->
  Forall (fun h => hook_call h task spider = Ret VNone)
    (process_request_methods chain) ->
  fetch aiohttp_request task (logger ++ ".DownloadMW") spider
      (add_events st
         ([EvLog logger INFO (VStr "Got a task: %s (callback: %s)")]
            ++ req_events task (process_request_methods chain)
            ++ [EvDownloadFunc task]))
    = (Err e, st2) ->
  is_Exception e = true ->
  Forall (fun h => hook_call h task e spider = Ret VNone)
    (process_exception_methods chain) ->
  distribute aiohttp_request task logger st
    = (Ok tt,
       add_events st2
         (exc_events task e (process_exception_methods chain)
            ++ [if is_IgnoreRequest e
                then EvLog "Engine" DEBUG
                       (VStr "Downloader told us to ignore the request")
                else EvLog "Engine" ERROR (VExc e)])).
Proof.
  intros spider chain Hentry Hq Hfetch Hx He.
  erewrite distribute_is_classify with (v := VExc e); [| exact Hentry |].
  2: { unfold download, try_except_Exception, bind.
       fold spider chain.
       rewrite process_request_reaches_fetch by exact Hq.
       rewrite add_events_app, Hfetch, Hx.
       unfold process_exception.
       rewrite <- (app_nil_r (process_exception_methods chain)) at 1.
       rewrite process_exception_loop_None by exact He. reflexivity. }
  unfold classify. cbn [isinstance_IgnoreRequest isinstance_Exception].
  rewrite Hx. rewrite <- add_events_app.
  destruct (is_IgnoreRequest e); reflexivity.
Qed.

Lemma unresolved_fetch_fault_is_logged_and_dropped_witness :
  distribute net_headerless task0 "Engine.exec0"
      (engine_with (chain_of [hq 1 VNone] [] [he 2 VNone]) [])
    = (Ok tt,
       mkEngine [] 0
         (spiders (engine_with (chain_of [hq 1 VNone] [] [he 2 VNone]) []))
         ({[ "http://a/" ]} ∪ ∅)
         [got_a_task; EvRequestHook 1 task0; EvDownloadFunc task0;
          EvSeenAdd "http://a/"; EvNetGet "http://a/";
          EvExceptionHook 2 task0 no_content_type;
          EvLog "Engine" ERROR (VExc no_content_type)]).
Proof.
  refine (unresolved_fetch_fault_is_logged_and_dropped net_headerless "Engine.exec0"
           (engine_with (chain_of [hq 1 VNone] [] [he 2 VNone]) [])
           (mkEngine [] 0
              (spiders (engine_with (chain_of [hq 1 VNone] [] [he 2 VNone]) []))
              ({[ "http://a/" ]} ∪ ∅)
              [got_a_task; EvRequestHook 1 task0; EvDownloadFunc task0;
               EvSeenAdd "http://a/"; EvNetGet "http://a/"])
           task0
           (mkSpiderEntry spider0 (chain_of [hq 1 VNone] [] [he 2 VNone])
              spidermw0 resultmw0)
           no_content_type _ _ _ _ _).
  - vm_compute. reflexivity.
  - repeat constructor.
  - reflexivity.
  - reflexivity.
  - repeat constructor.
Defined.

(** ** Routing the outcomes of a scrape *)

Lemma distribute_results_routes (results : list Value) (spider : SpiderInst)
    (entry : SpiderEntry) (st : Engine) :
  spiders st !! name spider = Some entry ->
  items_accepted entry spider results ->
  distribute_results results spider st
    = (Ok tt,
       mkEngine (queue st ++ requests_of results)
         (unfinished_tasks st + length (requests_of results))
         (spiders st) (seen_urls st)
         (trace st ++ (route_event <$> results))).
Proof.
  intros Hentry Hacc. revert st Hentry.
  induction Hacc as [|result rest Hres _ IH]; intros st Hentry.
  - cbn. rewrite !app_nil_r, Nat.add_0_r. destruct st; done.
  - cbn [distribute_results]. unfold bind at 1.
    destruct result as [|resp|r|e|items|s|n];
      try (destruct Hres as [Hres|[v Hv]]; [discriminate Hres|];
           unfold bind at 1; unfold spiders_getitem at 1; rewrite Hentry;
           unfold bind at 1; unfold emit; unfold bind at 1; rewrite Hv;
           cbn [call ret]; rewrite IH by exact Hentry;
           cbn; rewrite <- app_assoc; done).
    unfold put_nowait. rewrite IH by exact Hentry.
    cbn. rewrite <- !app_assoc. cbn. fold (requests_of rest).
    rewrite Nat.add_succ_r. done.
Qed.

(** X14. [distribute] routes the outcomes of a scrape in order.  With the
    spider registered, the scrape operation returning a list and the result
    manager's [process_item] returning for every item: each Task of the list
    is put at the tail of the queue and counted as unfinished, each other
    outcome is handed to [process_item], in the order of the list, after the
    warning when the result manager has no [process_item] hook and the line
    that counts the results. *)
Theorem scrape_outcomes_are_routed_in_order
    (task : Request) (response : Value) (spider : SpiderInst)
    (entry : SpiderEntry) (results : list Value) (st : Engine) :
  spiders st !! name spider = Some entry ->
  scrape_response (spidermwmanager entry) (callback task) response task spider
    = Ret (VList results) ->
  items_accepted entry spider results ->
  scrape_and_route task response spider st
    = (Ok tt,
       mkEngine (queue st ++ requests_of results)
         (unfinished_tasks st + length (requests_of results))
         (spiders st) (seen_urls st)
         (trace st
            ++ [EvScrape (callback task) response task]
            ++ match process_item_methods (resultmwmanager entry) with
               | [] => [EvLog "Engine" WARNING
                          (VStr "You have no result pipeline, results will be discarded")]
               | _ => []
               end
            ++ [EvLog "Engine" INFO (VStr "Found %d results (from: %s)")]
            ++ (route_event <$> results))).
Proof.
  intros Hentry Hscrape Hacc. unfold scrape_and_route.
  unfold bind at 1. unfold spiders_getitem at 1. rewrite Hentry.
  unfold bind at 1. unfold emit. unfold bind at 1. rewrite Hscrape.
  cbn [call ret isinstance_Exception].
  unfold bind at 1. unfold spiders_getitem at 1. cbn [spiders add_events].
  rewrite Hentry. cbn [py_len py_iter].
  destruct (process_item_methods (resultmwmanager entry)) as [|m ms];
    unfold bind, log, emit, ret; cbv beta iota;
    rewrite (distribute_results_routes results spider entry) by assumption;
    cbn; rewrite <- !app_assoc; done.
Qed.

Lemma scrape_outcomes_are_routed_in_order_witness :
  scrape_and_route task0 (VResponse resp0) spider0
      (engine_scraping
         (mkSpiderMW (fun _ _ _ _ => Ret (VList [VStr "item"; VRequest task1; VInt 3])))
         [])
    = (Ok tt,
       mkEngine [task1] 1
         (spiders
            (engine_scraping
               (mkSpiderMW
                  (fun _ _ _ _ => Ret (VList [VStr "item"; VRequest task1; VInt 3])))
               []))
         ∅
         [EvScrape parse0 (VResponse resp0) task0;
          EvLog "Engine" WARNING
            (VStr "You have no result pipeline, results will be discarded");
          EvLog "Engine" INFO (VStr "Found %d results (from: %s)");
          EvProcessItem (VStr "item"); EvQueuePut task1; EvProcessItem (VInt 3)]).
Proof.
  apply (scrape_outcomes_are_routed_in_order task0 (VResponse resp0) spider0
           (mkSpiderEntry spider0 new_manager
              (mkSpiderMW
                 (fun _ _ _ _ => Ret (VList [VStr "item"; VRequest task1; VInt 3])))
              resultmw0)
           [VStr "item"; VRequest task1; VInt 3]).
  - vm_compute. reflexivity.
  - reflexivity.
  - constructor; [right; eexists; reflexivity|].
    constructor; [left; reflexivity|].
    constructor; [right; eexists; reflexivity|].
    constructor.
Defined.

Lemma distribute_results_app (pre rest : list Value) (spider : SpiderInst)
    (entry : SpiderEntry) (st : Engine) :
  spiders st !! name spider = Some entry ->
  items_accepted entry spider pre ->
  distribute_results (pre ++ rest) spider st
    = distribute_results rest spider
        (mkEngine (queue st ++ requests_of pre)
           (unfinished_tasks st + length (requests_of pre))
           (spiders st) (seen_urls st)
           (trace st ++ (route_event <$> pre))).
Proof.
  intros Hentry Hacc. revert st Hentry.
  induction Hacc as [|result pre Hres _ IH]; intros st Hentry.
  - cbn. rewrite !app_nil_r, Nat.add_0_r. destruct st; done.
  - cbn [app distribute_results]. unfold bind at 1.
    destruct result as [|resp|r|e|items|s|n];
      try (destruct Hres as [Hres|[v Hv]]; [discriminate Hres|];
           unfold bind at 1; unfold spiders_getitem at 1; rewrite Hentry;
           unfold bind at 1; unfold emit; unfold bind at 1; rewrite Hv;
           cbn [call ret]; rewrite IH by exact Hentry;
           cbn; rewrite <- app_assoc; done).
    unfold put_nowait. rewrite IH by exact Hentry.
    cbn. rewrite <- !app_assoc. cbn. fold (requests_of pre).
    rewrite Nat.add_succ_r. done.
Qed.

(** X15. An item that the result manager fails on ends the routing: when
    [process_item] raises for one outcome of the scrape, the outcomes before
    it having been routed, that exception comes out of the loop, and the
    outcomes after it, Tasks included, are neither queued nor processed. *)
Theorem failing_item_aborts_routing
    (pre post : list Value) (item : Value) (spider : SpiderInst)
    (entry : SpiderEntry) (st : Engine) (e : Exc) :
  spiders st !! name spider = Some entry ->
  items_accepted entry spider pre ->
  is_Request item = false ->
  process_item (resultmwmanager entry) item spider = Raise e ->
  distribute_results (pre ++ item :: post) spider st
    = (Err e,
       mkEngine (queue st ++ requests_of pre)
         (unfinished_tasks st + length (requests_of pre))
         (spiders st) (seen_urls st)
         (trace st ++ (route_event <$> pre) ++ [EvProcessItem item])).
Proof.
  intros Hentry Hacc Hitem Hraise.
  rewrite (distribute_results_app pre (item :: post) spider entry) by assumption.
  cbn [distribute_results]. unfold bind at 1.
  destruct item as [|resp|r|e0|items|s|n]; try discriminate Hitem.
  all: unfold bind at 1; unfold spiders_getitem at 1; cbn [spiders];
    rewrite Hentry; unfold bind at 1; unfold emit; unfold bind at 1;
    rewrite Hraise; cbn.
  all: unfold add_events; cbn; rewrite <- app_assoc; done.
Qed.

Lemma failing_item_aborts_routing_witness :
  distribute_results [VRequest task1; VStr "item"; VRequest task0] spider0
      (mkEngine [] 0
         {[ "s" := mkSpiderEntry spider0 new_manager spidermw0
                     (mkResultMW [7] (fun _ _ => Raise fault0)) ]} ∅ [])
    = (Err fault0,
       mkEngine [task1] 1
         {[ "s" := mkSpiderEntry spider0 new_manager spidermw0
                     (mkResultMW [7] (fun _ _ => Raise fault0)) ]} ∅
         [EvQueuePut task1; EvProcessItem (VStr "item")]).
Proof.
  refine (failing_item_aborts_routing [VRequest task1] [VRequest task0] (VStr "item")
            spider0
            (mkSpiderEntry spider0 new_manager spidermw0
               (mkResultMW [7] (fun _ _ => Raise fault0)))
            (mkEngine [] 0
               {[ "s" := mkSpiderEntry spider0 new_manager spidermw0
                           (mkResultMW [7] (fun _ _ => Raise fault0)) ]} ∅ [])
            fault0 _ _ _ _).
  - vm_compute. reflexivity.
  - constructor; [left; reflexivity|]. constructor.
  - reflexivity.
  - reflexivity.
Defined.

(** X16. What [distribute] does when the scrape does not hand back a
    sequence.  With the spider registered: a fault value (an [Exception]
    instance) returned by the scrape operation is logged as an error and the
    task is dropped, with nothing queued or processed; a value that is not
    a fault and has no length ([None], a Result, a number) makes the line
    that counts the results raise a [TypeError], after the warning about an
    empty result pipeline. *)
Theorem scrape_without_sequence
    (task : Request) (response : Value) (spider : SpiderInst)
    (entry : SpiderEntry) (v : Value) (st : Engine) :
  spiders st !! name spider = Some entry ->
  scrape_response (spidermwmanager entry) (callback task) response task spider
    = Ret v ->
  (isinstance_Exception v = true ->
     scrape_and_route task response spider st
       = (Ok tt,
          add_events st
            [EvScrape (callback task) response task; EvLog "Engine" ERROR v])) /\
  (isinstance_Exception v = false -> py_len v = None ->
     scrape_and_route task response spider st
       = (Err (mkExc TypeError
                 ("object of type '" ++ class_name v ++ "' has no len()")),
          add_events st
            ([EvScrape (callback task) response task]
               ++ match process_item_methods (resultmwmanager entry) with
                  | [] => [EvLog "Engine" WARNING
                             (VStr "You have no result pipeline, results will be discarded")]
                  | _ => []
                  end))).
Proof.
  intros Hentry Hscrape.
  split; intros Hx; [|intros Hlen]; unfold scrape_and_route;
    unfold bind at 1; unfold spiders_getitem at 1; rewrite Hentry;
    unfold bind at 1; unfold emit; unfold bind at 1; rewrite Hscrape;
    cbn [call ret]; rewrite Hx.
  - unfold log, emit. rewrite add_events_app. done.
  - rewrite Hlen. unfold bind at 1. unfold spiders_getitem at 1.
    cbn [spiders add_events]. rewrite Hentry.
    destruct (process_item_methods (resultmwmanager entry));
      unfold bind, log, emit, ret, raise, add_events; cbn;
      rewrite <- ?app_assoc; done.
Qed.

Lemma scrape_without_sequence_witness :
  scrape_and_route task0 (VResponse resp0) spider0
      (engine_scraping (mkSpiderMW (fun _ _ _ _ => Ret (VExc fault0))) [])
    = (Ok tt,
       add_events (engine_scraping (mkSpiderMW (fun _ _ _ _ => Ret (VExc fault0))) [])
         [EvScrape parse0 (VResponse resp0) task0; EvLog "Engine" ERROR (VExc fault0)]) /\
  scrape_and_route task0 (VResponse resp0) spider0
      (engine_scraping (mkSpiderMW (fun _ _ _ _ => Ret VNone)) [])
    = (Err (mkExc TypeError "object of type 'NoneType' has no len()"),
       add_events (engine_scraping (mkSpiderMW (fun _ _ _ _ => Ret VNone)) [])
         [EvScrape parse0 (VResponse resp0) task0;
          EvLog "Engine" WARNING
            (VStr "You have no result pipeline, results will be discarded")]).
Proof.
  split.
  - refine (proj1 (scrape_without_sequence task0 (VResponse resp0) spider0
                     (mkSpiderEntry spider0 new_manager
                        (mkSpiderMW (fun _ _ _ _ => Ret (VExc fault0))) resultmw0)
                     (VExc fault0)
                     (engine_scraping (mkSpiderMW (fun _ _ _ _ => Ret (VExc fault0))) [])
                     _ _) _).
    + vm_compute. reflexivity.
    + reflexivity.
    + reflexivity.
  - refine (proj2 (scrape_without_sequence task0 (VResponse resp0) spider0
                     (mkSpiderEntry spider0 new_manager
                        (mkSpiderMW (fun _ _ _ _ => Ret VNone)) resultmw0)
                     VNone
                     (engine_scraping (mkSpiderMW (fun _ _ _ _ => Ret VNone)) [])
                     _ _) _ _).
    + vm_compute. reflexivity.
    + reflexivity.
    + reflexivity.
    + reflexivity.
Defined.

(** ** What [distribute] can change *)

Lemma sees_at_most_refl (u : string) (st : Engine) : sees_at_most u st st.
Proof. left. done. Qed.

Lemma sees_at_most_trans (u : string) (a b c : Engine) :
  sees_at_most u a b -> sees_at_most u b c -> sees_at_most u a c.
Proof.
  unfold sees_at_most. intros [H1|H1] [H2|H2].
  - left. congruence.
  - right. congruence.
  - right. congruence.
  - right. rewrite H2, H1, (assoc_L (∪)), union_idemp_L. done.
Qed.

Lemma sees_at_most_events (u : string) (st : Engine) (evs : list Event) :
  sees_at_most u st (add_events st evs).
Proof. left. done. Qed.

Lemma sees_at_most_put (u : string) (st : Engine) (item : Request) :
  sees_at_most u st (snd (put_nowait item st)).
Proof. left. done. Qed.

Lemma sees_at_most_seen (u : string) (st : Engine) (u' : string) :
  u' = u -> sees_at_most u st (snd (seen_add u' st)).
Proof. intros ->. right. done. Qed.

(** X17. All that [distribute] can change in the engine, whatever the
    middlewares, the transport, the scrape and the result pipeline do and
    however it ends: the queue keeps what it held and gains tasks at its
    tail only, each counted as unfinished; the registry is the same; the
    seen set is as it was or has gained the one URL of the task, never the
    URL of a task that was merely discovered. *)
Theorem distribute_changes_only_queue_tail_and_seen_url
    (aiohttp_request : string -> NetOutcome)
    (task : Request) (logger : string) (st : Engine) :
  let st' := snd (distribute aiohttp_request task logger st) in
  (exists added : list Request,
     queue st' = queue st ++ added /\
     unfinished_tasks st' = unfinished_tasks st + length added) /\
  spiders st' = spiders st /\
  (seen_urls st' = seen_urls st \/ seen_urls st' = {[ url task ]} ∪ seen_urls st).
Proof.
  intros st'. subst st'.
  destruct (distribute_accounts aiohttp_request task logger st)
    as (added & Hq & Hu & Hs & _).
  split; [exists added; done|]. split; [exact Hs|].
  apply (preserved_distribute (sees_at_most (url task)) (fun u => u = url task)
           (sees_at_most_refl _) (sees_at_most_trans _) (sees_at_most_events _)
           (sees_at_most_put _) (sees_at_most_seen _)).
  done.
Qed.

(** ** More on the registry and on registration order *)

(** X18. The registry is tested with the name of the class and filled
    under the name of the instance.  When the constructor gives the
    instance a name other than the class's, the class is still unknown after
    it has been registered, so registering it again builds another instance
    and stores a fresh registration, with empty chains, over the first. *)
Theorem register_spider_keys_by_instance_name
    (new_spidermw : SpiderMiddlewareManager)
    (new_resultmw : ResultMiddlewareManager)
    (spider : SpiderClass) (self : Engine) :
  let inst := sc_call spider ("Engine." ++ sc_name spider)%string in
  let registered := snd (register_spider new_spidermw new_resultmw spider self) in
  spiders self !! sc_name spider = None ->
  name inst <> sc_name spider ->
  spiders registered !! sc_name spider = None /\
  register_spider new_spidermw new_resultmw spider registered
    = (RefInst inst,
       mkEngine (queue registered) (unfinished_tasks registered)
         (<[ name inst := mkSpiderEntry inst new_manager new_spidermw new_resultmw ]>
            (spiders registered))
         (seen_urls registered) (trace registered)).
Proof.
  intros inst registered Hnone Hname.
  assert (Hstill : spiders registered !! sc_name spider = None).
  { subst registered. unfold register_spider. rewrite Hnone. cbn.
    rewrite lookup_insert_ne by exact Hname. exact Hnone. }
  split; [exact Hstill|].
  unfold register_spider at 1. rewrite Hstill. done.
Qed.

Lemma register_spider_keys_by_instance_name_witness :
  let renamed := mkSpiderClass "generic" (fun _ => spider0) in
  let registered := snd (register_spider spidermw0 resultmw0 renamed Engine_init) in
  spiders registered !! "generic" = None /\
  fst (register_spider spidermw0 resultmw0 renamed registered) = RefInst spider0.
Proof.
  destruct (register_spider_keys_by_instance_name spidermw0 resultmw0
              (mkSpiderClass "generic" (fun _ => spider0)) Engine_init)
    as [Hstill Hagain].
  - reflexivity.
  - discriminate.
  - split; [exact Hstill|]. cbv zeta. rewrite Hagain. reflexivity.
Defined.

Lemma fmap_rev {A B} (f : A -> B) (l : list A) : f <$> rev l = rev (f <$> l).
Proof.
  induction l as [|x l IH]; [done|]. cbn. rewrite fmap_app, IH. done.
Qed.

(** X19. The chain is an onion.  When every registered middleware has both
    a [process_request] and a [process_response] hook, the middlewares meet
    a response in the exact reverse of the order in which they met the
    request: the owners of the stored response hooks are the owners of the
    stored request hooks, reversed, and these are the middlewares in
    registration order. *)
Theorem chain_is_an_onion (mws : list Middleware) :
  Forall (fun mw => is_Some (mw_process_request mw) /\
                    is_Some (mw_process_response mw)) mws ->
  hook_owner <$> process_request_methods (register_all mws) = mw_id <$> mws /\
  hook_owner <$> process_response_methods (register_all mws)
    = rev (hook_owner <$> process_request_methods (register_all mws)).
Proof.
  intros Hall. unfold register_all.
  destruct (fold_add_middleware mws new_manager) as (Hq & Hr & _).
  cbn in Hq, Hr. rewrite app_nil_r in Hr. rewrite Hq, Hr. clear Hq Hr.
  assert (Hreq : hook_owner <$> request_hooks mws = mw_id <$> mws).
  { induction Hall as [|mw mws [[fq Hfq] [fr Hfr]] _ IH]; [done|].
    unfold request_hooks in *. cbn. rewrite Hfq. cbn. rewrite IH. done. }
  assert (Hresp : hook_owner <$> response_hooks mws = mw_id <$> mws).
  { clear Hreq. induction Hall as [|mw mws [[fq Hfq] [fr Hfr]] _ IH]; [done|].
    unfold response_hooks in *. cbn. rewrite Hfr. cbn. rewrite IH. done. }
  split; [exact Hreq|].
  rewrite Hreq, <- Hresp. apply fmap_rev.
Qed.

Lemma chain_is_an_onion_witness :
  let both i :=
    mkMiddleware i (Some (fun _ _ => Ret VNone)) (Some (fun _ _ _ => Ret VNone))
      None false false in
  hook_owner <$> process_request_methods (register_all [both 1; both 2; both 3])
    = [1; 2; 3] /\
  hook_owner <$> process_response_methods (register_all [both 1; both 2; both 3])
    = [3; 2; 1].
Proof.
  destruct (chain_is_an_onion
              [mkMiddleware 1 (Some (fun _ _ => Ret VNone))
                 (Some (fun _ _ _ => Ret VNone)) None false false;
               mkMiddleware 2 (Some (fun _ _ => Ret VNone))
                 (Some (fun _ _ _ => Ret VNone)) None false false;
               mkMiddleware 3 (Some (fun _ _ => Ret VNone))
                 (Some (fun _ _ _ => Ret VNone)) None false false])
    as [Hq Hr].
  - constructor; [split; eexists; reflexivity|].
    constructor; [split; eexists; reflexivity|].
    constructor; [split; eexists; reflexivity|].
    constructor.
  - split; [exact Hq | exact Hr].
Defined.

(** ** From the transport to the scrape *)

Lemma fetch_succeeds (aiohttp_request : string -> NetOutcome)
    (task : Request) (logger : string) (spider : SpiderInst) (st : Engine)
    (raw : RawResponse) (content_type response_body : string) :
  aiohttp_request (url task) = NetOk raw ->
  headers_getitem "content-type" (raw_headers raw) = Some content_type ->
  raw_read raw = inr response_body ->
  fetch aiohttp_request task logger spider st
    = (Ok (VResponse (mkResponse (raw_url raw) (raw_status raw) (raw_headers raw)
                        response_body task)),
       mkEngine (queue st) (unfinished_tasks st) (spiders st)
         ({[ url task ]} ∪ seen_urls st)
         (trace st ++ [EvSeenAdd (url task); EvNetGet (url task);
                       EvLog logger DEBUG (VStr "Got a response: %s (code: %s)")])).
Proof.
  intros Hnet Hct Hread. unfold fetch, bind, seen_add, emit, add_events, log, ret.
  cbn [fst snd queue unfinished_tasks spiders seen_urls trace].
  rewrite Hnet, Hct, Hread. unfold emit, add_events. cbn.
  rewrite <- !app_assoc. done.
Qed.

(** X20. The plain path of a task.  With its spider registered, every
    request hook returning [None], no response hook, and the transport
    answering with a content type and a readable body, [distribute] hands
    the scrape operation a Result made of the transport's URL, status,
    headers and body and referring back to the task itself, after the URL of
    the task has been recorded as seen. *)
Theorem fetched_response_reaches_scrape
    (aiohttp_request : string -> NetOutcome) (logger : string)
    (st : Engine) (task : Request) (entry : SpiderEntry)
    (raw : RawResponse) (content_type response_body : string) :
  let spider := cb_self (callback task) in
  let chain := downloadmwmanager entry in
  spiders st !! name spider = Some entry ->
  Forall (fun h => hook_call h task spider = Ret VNone)
    (process_request_methods chain) ->
  process_response_methods chain = [] ->
  aiohttp_request (url task) = NetOk raw ->
  headers_getitem "content-type" (raw_headers raw) = Some content_type ->
  raw_read raw = inr response_body ->
  distribute aiohttp_request task logger st
    = scrape_and_route task
        (VResponse (mkResponse (raw_url raw) (raw_status raw) (raw_headers raw)
                      response_body task))
        spider
        (mkEngine (queue st) (unfinished_tasks st) (spiders st)
           ({[ url task ]} ∪ seen_urls st)
           (trace st
              ++ [EvLog logger INFO (VStr "Got a task: %s (callback: %s)")]
              ++ req_events task (process_request_methods chain)
              ++ [EvDownloadFunc task; EvSeenAdd (url task); EvNetGet (url task);
                  EvLog (logger ++ ".DownloadMW") DEBUG
                    (VStr "Got a response: %s (code: %s)")])).
Proof.
  intros spider chain Hentry Hq Hr Hnet Hct Hread.
  erewrite distribute_is_classify; [| exact Hentry |].
  2: { unfold download, try_except_Exception, bind. fold spider chain.
       rewrite process_request_reaches_fetch by exact Hq.
       erewrite fetch_succeeds by eassumption.
       unfold process_response. rewrite Hr. cbn. reflexivity. }
  cbn [classify isinstance_IgnoreRequest isinstance_Exception].
  f_equal. unfold add_events. cbn. rewrite <- !app_assoc. done.
Qed.

Lemma fetched_response_reaches_scrape_witness :
  distribute net_up task0 "Engine.exec0"
      (engine_with (chain_of [hq 1 VNone] [] []) [])
    = scrape_and_route task0
        (VResponse (mkResponse "http://a/" 200 [("content-type", "text/html")]
                      "body" task0))
        spider0
        (mkEngine [] 0 (spiders (engine_with (chain_of [hq 1 VNone] [] []) []))
           ({[ "http://a/" ]} ∪ ∅)
           [got_a_task; EvRequestHook 1 task0; EvDownloadFunc task0;
            EvSeenAdd "http://a/"; EvNetGet "http://a/";
            EvLog "Engine.exec0.DownloadMW" DEBUG
              (VStr "Got a response: %s (code: %s)")]).
Proof.
  refine (fetched_response_reaches_scrape net_up "Engine.exec0"
            (engine_with (chain_of [hq 1 VNone] [] []) []) task0
            (mkSpiderEntry spider0 (chain_of [hq 1 VNone] [] []) spidermw0 resultmw0)
            (mkRaw "http://a/" 200 [("content-type", "text/html")] (inr "body"))
            "text/html" "body" _ _ _ _ _ _).
  - vm_compute. reflexivity.
  - repeat constructor.
  - reflexivity.
  - reflexivity.
  - reflexivity.
  - reflexivity.
Defined.

(** ** Signals that are not an [Exception] *)

(** X22. A fatal signal that is not an [Exception] ([KeyboardInterrupt],
    [SystemExit], [CancelledError]) is never intercepted, wherever in
    [download] it is raised.  With the task's spider registered, if such a
    signal is raised in the request phase, by the download function or in
    the response phase, by a hook or by the fetch, then no
    [process_exception] hook is invoked and nothing is logged: the worker
    acknowledges the task in the very state the signal was raised in and
    the signal propagates out of the worker. *)
Theorem fatal_signal_inside_download_stops_worker
    (aiohttp_request : string -> NetOutcome) (logger : string)
    (self st1 : Engine) (task : Request) (rest : list Request)
    (entry : SpiderEntry) (e : Exc) :
  let spider := cb_self (callback task) in
  let chain := downloadmwmanager entry in
  queue self = task :: rest ->
  0 < unfinished_tasks self ->
  spiders self !! name spider = Some entry ->
  (let* resp := process_request chain (fetch aiohttp_request) task
                  (logger ++ ".DownloadMW") spider in
   process_response chain task spider resp)
    (add_events (pulled self task rest)
       [EvLog logger INFO (VStr "Got a task: %s (callback: %s)")])
    = (Err e, st1) ->
  is_Exception e = false ->
  is_fatal e = true ->
  consumer_iteration aiohttp_request logger self = (Propagate e, acknowledged st1).
Proof.
  intros spider chain Hq Hpos Hentry Hbody Hx Hf.
  rewrite (consumer_iteration_after_distribute _ _ _ _ _ Hq Hpos).
  erewrite distribute_download_raises; [| exact Hentry |].
  2: { unfold download, try_except_Exception. fold spider chain.
       rewrite Hbody, Hx. reflexivity. }
  rewrite Hf. done.
Qed.

Lemma fatal_signal_inside_download_stops_worker_witness :
  let exit_hook : Hook ResponseFn :=
    mkHook 1 (fun _ _ _ => Raise (mkExc SystemExit "")) in
  consumer_iteration net_up "Engine.exec0"
      (engine_with (chain_of [] [exit_hook] [he 2 retry]) [task0; task1])
    = (Propagate (mkExc SystemExit ""),
       mkEngine [task1] 1
         (spiders (engine_with (chain_of [] [exit_hook] [he 2 retry]) [task0; task1]))
         ({[ "http://a/" ]} ∪ ∅)
         [EvQueueGet task0; got_a_task; EvDownloadFunc task0;
          EvSeenAdd "http://a/"; EvNetGet "http://a/";
          EvLog "Engine.exec0.DownloadMW" DEBUG (VStr "Got a response: %s (code: %s)");
          EvResponseHook 1 task0
            (VResponse (mkResponse "http://a/" 200 [("content-type", "text/html")]
                          "body" task0));
          EvTaskDone]).
Proof.
  intros exit_hook.
  refine (fatal_signal_inside_download_stops_worker net_up "Engine.exec0"
            (engine_with (chain_of [] [exit_hook] [he 2 retry]) [task0; task1])
            (mkEngine [task1] 2
               (spiders (engine_with (chain_of [] [exit_hook] [he 2 retry])
                           [task0; task1]))
               ({[ "http://a/" ]} ∪ ∅)
               [EvQueueGet task0; got_a_task; EvDownloadFunc task0;
                EvSeenAdd "http://a/"; EvNetGet "http://a/";
                EvLog "Engine.exec0.DownloadMW" DEBUG
                  (VStr "Got a response: %s (code: %s)");
                EvResponseHook 1 task0
                  (VResponse (mkResponse "http://a/" 200
                                [("content-type", "text/html")] "body" task0))])
            task0 [task1]
            (mkSpiderEntry spider0 (chain_of [] [exit_hook] [he 2 retry])
               spidermw0 resultmw0)
            (mkExc SystemExit "") _ _ _ _ _ _).
  - reflexivity.
  - cbn. lia.
  - vm_compute. reflexivity.
  - reflexivity.
  - reflexivity.
  - reflexivity.
Defined.
